(** * Instant Lead Response System: the lead pipeline of [app.py]

    A shallow embedding of the request handler [submit_lead], of the
    helpers it calls ([process_lead_with_ai], [send_email_response],
    [save_lead], [send_telegram_notification]) and of [get_stats],
    followed by the properties of the pipeline.

    Conventions of the model.
    - Python [str] values are byte strings holding UTF-8 text.
    - The wall clock ([time.time], [datetime.utcnow], SQLite's
      CURRENT_TIMESTAMP) is one counter of microseconds carried in the
      state; only calls that leave the process take time.
    - Python floats that come out of divisions of integers are exact
      rationals here.
    - What the outer world answers (the model provider, the mail
      transport, the database engine, the notification child process) is
      given per request by an [Oracle]; [json.loads] and the coercions of
      SQLite's column affinity are parameters of the development. *)

From Stdlib Require Import ZArith List String Ascii Bool Lia QArith.
From Stdlib Require Import Sorted Permutation DecimalString SpecFloat.
Import ListNotations.

Local Open Scope string_scope.
Local Open Scope Z_scope.

(** ** Python string operations used by the module *)

Module PyStr.

(** The one-character strings that cannot be typed inside a literal. *)
Definition nl : string := String (ascii_of_nat 10) EmptyString.
Definition dq : string := String (ascii_of_nat 34) EmptyString.

(** [sub in s] *)
Fixpoint contains (sub s : string) : bool :=
  prefix sub s ||
  match s with
  | EmptyString => false
  | String _ s' => contains sub s'
  end.

(** [s.split(sep)] for a non-empty [sep]: the text between the
    occurrences of [sep], found left to right without overlap.  [skip]
    counts the characters of a separator still to be passed over and
    [cur] is the part being collected. *)
Fixpoint split_from (sep : string) (skip : nat) (cur s : string) : list string :=
  match skip with
  | S k =>
      match s with
      | EmptyString => [cur]
      | String _ s' => split_from sep k cur s'
      end
  | O =>
      if prefix sep s then
        cur :: match s with
               | EmptyString => [EmptyString]
               | String _ s' => split_from sep (String.length sep - 1) EmptyString s'
               end
      else
        match s with
        | EmptyString => [cur]
        | String c s' => split_from sep O (cur ++ String c EmptyString) s'
        end
  end.

Definition split (sep s : string) : list string :=
  split_from sep O EmptyString s.

(** White space as [str.strip] understands it: the code points
    U+0009..U+000D, U+001C..U+0020, U+0085, U+00A0, U+1680,
    U+2000..U+200A, U+2028, U+2029, U+202F, U+205F and U+3000, read here
    in their UTF-8 encoding. *)
Definition ascii_space (c : ascii) : bool :=
  let n := nat_of_ascii c in
  ((9 <=? n) && (n <=? 13) || (28 <=? n) && (n <=? 32))%nat.

Definition byte_is (c : ascii) (n : nat) : bool := (nat_of_ascii c =? n)%nat.

(** The rest of [s] after one leading white-space code point, if any. *)
Definition space_prefix (s : string) : option string :=
  match s with
  | EmptyString => None
  | String c1 r1 =>
      if ascii_space c1 then Some r1 else
      match r1 with
      | EmptyString => None
      | String c2 r2 =>
          if byte_is c1 194 && (byte_is c2 133 || byte_is c2 160) then Some r2 else
          match r2 with
          | EmptyString => None
          | String c3 r3 =>
              let n3 := nat_of_ascii c3 in
              if byte_is c1 225 && byte_is c2 154 && byte_is c3 128 then Some r3
              else if byte_is c1 226 && byte_is c2 128 &&
                      ((128 <=? n3) && (n3 <=? 138) || (n3 =? 168) || (n3 =? 169)
                       || (n3 =? 175))%nat then Some r3
              else if byte_is c1 226 && byte_is c2 129 && byte_is c3 159 then Some r3
              else if byte_is c1 227 && byte_is c2 128 && byte_is c3 128 then Some r3
              else None
          end
      end
  end.

Fixpoint lstrip_fuel (fuel : nat) (s : string) : string :=
  match fuel with
  | O => s
  | S fuel' =>
      match space_prefix s with
      | Some r => lstrip_fuel fuel' r
      | None => s
      end
  end.

(** [s.lstrip()]: every step removes at least one byte, so the length of
    [s] is fuel enough (lemma [lstrip_done] below). *)
Definition lstrip (s : string) : string := lstrip_fuel (String.length s) s.

Definition all_space (s : string) : bool :=
  match lstrip s with
  | EmptyString => true
  | String _ _ => false
  end.

(** [s.rstrip()]: cut at the first position whose whole remainder is
    white space. *)
Fixpoint rstrip (s : string) : string :=
  match s with
  | EmptyString => EmptyString
  | String c r => if all_space s then EmptyString else String c (rstrip r)
  end.

(** [s.strip()] *)
Definition strip (s : string) : string := rstrip (lstrip s).

(** [str(n)] for an integer. *)
Definition str_int (n : Z) : string := NilZero.string_of_int (Z.to_int n).

(** Truth value of an optional string such as [os.getenv] returns:
    [None] and the empty string are false. *)
Definition truthy (v : option string) : bool :=
  match v with
  | None => false
  | Some EmptyString => false
  | Some (String _ _) => true
  end.

End PyStr.

(** ** Values, exceptions and the state of the process *)

(** What [json.loads] returns: the Python value of a JSON document.  A
    dict is kept as its members in document order; a key written twice
    reads as its last occurrence, as in the dict Python builds. *)
#[warnings="-register-all"]
Inductive json : Type :=
| JNull
| JBool (b : bool)
| JInt (n : Z)
| JFloat (f : spec_float)
| JStr (s : string)
| JList (l : list json)
| JDict (items : list (string * json)).

(** The name Python gives the type of a value in its error messages. *)
Definition type_name (v : json) : string :=
  match v with
  | JNull => "NoneType"
  | JBool _ => "bool"
  | JInt _ => "int"
  | JFloat _ => "float"
  | JStr _ => "str"
  | JList _ => "list"
  | JDict _ => "dict"
  end.

(** [d[key]] when the key is there: the value of its last occurrence. *)
Definition dict_lookup (items : list (string * json)) (key : string) : option json :=
  fold_left (fun found kv => if String.eqb (fst kv) key then Some (snd kv) else found)
            items None.

(** [d.get(key, default)] *)
Definition dict_get (items : list (string * json)) (key : string) (default : json) : json :=
  match dict_lookup items key with
  | Some v => v
  | None => default
  end.

(** The exceptions the module can meet, each with the text [str(e)]
    gives.  [APIError] stands for whatever the provider client raises, a
    timeout included. *)
Inductive exn : Type :=
| ValueError (msg : string)
| JSONDecodeError (msg : string)
| AttributeError (msg : string)
| IndexError (msg : string)
| OverflowError (msg : string)
| APIError (msg : string)
| SMTPException (msg : string)
| Sqlite3Error (msg : string)
| SubprocessError (msg : string)
| HTTPException (status_code : Z) (detail : string).

Definition str_exn (e : exn) : string :=
  match e with
  | ValueError m | JSONDecodeError m | AttributeError m | IndexError m
  | OverflowError m | APIError m | SMTPException m | Sqlite3Error m
  | SubprocessError m => m
  | HTTPException _ d => d
  end.

Inductive result (A : Type) : Type :=
| Ok (a : A)
| Raise (e : exn).
Arguments Ok {A} a.
Arguments Raise {A} e.

(** The environment variables read when the module is imported. *)
Record Config : Type := {
  ANTHROPIC_API_KEY : option string;
  SMTP_USER : option string;
  SMTP_PASSWORD : option string;
  TELEGRAM_CHAT_ID : option string
}.

(** class LeadSubmission *)
Record LeadSubmission : Type := {
  name : string;
  email : string;
  company : string;
  message : string;
  phone : option string
}.

(** class LeadResponse *)
Record LeadResponse : Type := {
  success : bool;
  reply_message : string;
  lead_id : option Z;
  response_time_ms : option Z
}.

(** A block of the provider's answer; only a text block has [.text]. *)
Inductive ContentBlock : Type :=
| TextBlock (text : string)
| OtherBlock.

(** *** The leads table *)

Module Sqlite.

(** The storage classes of SQLite. *)
Inductive value : Type :=
| Null
| Integer (n : Z)
| Real (f : spec_float)
| Text (s : string).

Inductive affinity : Type := INTEGER | TEXT.

(** How the sqlite3 module binds a Python value to a parameter: [None]
    is NULL, an int (a bool is one) must fit 64 bits, a float is REAL
    (NaN is stored as NULL), a str is TEXT; lists and dicts are
    refused. *)
Definition bind_param (position : Z) (v : json) : result value :=
  match v with
  | JNull => Ok Null
  | JBool b => Ok (Integer (if b then 1 else 0))
  | JInt n =>
      if (- 2 ^ 63 <=? n) && (n <? 2 ^ 63) then Ok (Integer n)
      else Raise (OverflowError "Python int too large to convert to SQLite INTEGER")
  | JFloat S754_nan => Ok Null
  | JFloat f => Ok (Real f)
  | JStr s => Ok (Text s)
  | JList _ | JDict _ =>
      Raise (Sqlite3Error ("Error binding parameter " ++ PyStr.str_int position
                           ++ ": type '" ++ type_name v ++ "' is not supported"))
  end.

End Sqlite.

(** One row of [leads], columns in the order of CREATE TABLE.
    [timestamp] is the reading of the clock that the ISO text written by
    the handler renders, [created_at] the second that CURRENT_TIMESTAMP
    names; [email_sent] is the 0 or 1 bound from a Python bool. *)
Record Row : Type := {
  id : Z;
  timestamp : Z;
  row_name : string;
  row_email : string;
  row_company : string;
  row_message : string;
  row_phone : option string;
  lead_score : Sqlite.value;
  intent_classification : Sqlite.value;
  row_response_time_ms : option Z;
  email_sent : bool;
  ai_response : Sqlite.value;
  created_at : Z
}.

(** The state a request runs in and leaves behind: the clock in
    microseconds, the table in rowid order, the counter SQLite keeps for
    an AUTOINCREMENT key, and what was printed. *)
Record World : Type := {
  clock : Z;
  leads : list Row;
  sqlite_sequence : Z;
  stdout : list string
}.

Definition initial_world (now : Z) : World :=
  {| clock := now; leads := []; sqlite_sequence := 0; stdout := [] |}.

(** What the outer world does during one request, and how long each
    call takes (microseconds). *)
Record Oracle : Type := {
  messages_create : string -> result (list ContentBlock);
  t_messages_create : Z;
  smtp_send : string -> string -> string -> result unit;
  t_smtp : Z;
  sqlite_fault : option exn;
  t_sqlite : Z;
  subprocess_run : result unit;
  t_subprocess : Z
}.

(** *** Computations: state and exceptions *)

Definition M (A : Type) : Type := World -> result A * World.

Definition ret {A} (a : A) : M A := fun w => (Ok a, w).

Definition raise {A} (e : exn) : M A := fun w => (Raise e, w).

Definition bind {A B} (m : M A) (k : A -> M B) : M B :=
  fun w =>
    match m w with
    | (Ok a, w') => k a w'
    | (Raise e, w') => (Raise e, w')
    end.

(** [try: body except Exception as e: handler] *)
Definition try_except {A} (body : M A) (handler : exn -> M A) : M A :=
  fun w =>
    match body w with
    | (Ok a, w') => (Ok a, w')
    | (Raise e, w') => handler e w'
    end.

Declare Scope py_scope.
Delimit Scope py_scope with py.
Notation "x <- m ;; k" := (bind m (fun x => k))
  (at level 100, m at next level, right associativity) : py_scope.
Notation "m ;; k" := (bind m (fun _ => k))
  (at level 100, right associativity) : py_scope.

Definition lift {A} (r : result A) : M A := fun w => (r, w).

(** [print(s)] *)
Definition print (s : string) : M unit :=
  fun w => (Ok tt, {| clock := clock w; leads := leads w;
                      sqlite_sequence := sqlite_sequence w;
                      stdout := stdout w ++ [s] |}).

(** [time.time()], in microseconds. *)
Definition time_time : M Z := fun w => (Ok (clock w), w).

Definition tick (d : Z) (w : World) : World :=
  {| clock := clock w + d; leads := leads w;
     sqlite_sequence := sqlite_sequence w; stdout := stdout w |}.

(** A call that leaves the process: it takes [d] and answers [r]. *)
Definition external {A} (d : Z) (r : result A) : M A := fun w => (r, tick d w).

(** [l[i]] *)
Definition getitem {A} (l : list A) (i : nat) : M A :=
  match nth_error l i with
  | Some a => ret a
  | None => raise (IndexError "list index out of range")
  end.

(** ** The module [app.py] *)

Section App.

Local Open Scope py_scope.

(** [json.loads]: the Python value of a document, or the
    [JSONDecodeError] it raises. *)
Variable json_loads : string -> result json.

(** What SQLite's column affinity makes of a value whose storage class
    is not the column's own (a numeric text in an INTEGER column, a
    number in a TEXT column). *)
Variable affinity_coerce : Sqlite.affinity -> Sqlite.value -> Sqlite.value.

Definition store_as (a : Sqlite.affinity) (v : Sqlite.value) : Sqlite.value :=
  match a, v with
  | _, Sqlite.Null => Sqlite.Null
  | Sqlite.INTEGER, Sqlite.Integer n => Sqlite.Integer n
  | Sqlite.TEXT, Sqlite.Text s => Sqlite.Text s
  | _, _ => affinity_coerce a v
  end.

(** The dict [process_lead_with_ai] returns. *)
Record Analysis : Type := {
  an_intent_classification : json;
  an_lead_score : json;
  an_ai_response : json
}.

(** The dict [lead_data] that [submit_lead] builds. *)
Record LeadData : Type := {
  ld_timestamp : Z;
  ld_name : string;
  ld_email : string;
  ld_company : string;
  ld_message : string;
  ld_phone : option string;
  ld_lead_score : json;
  ld_intent_classification : json;
  ld_response_time_ms : Z;
  ld_email_sent : bool;
  ld_ai_response : json
}.

(** *** init_db

    CREATE TABLE IF NOT EXISTS leads, with [id INTEGER PRIMARY KEY
    AUTOINCREMENT] and [created_at DATETIME DEFAULT CURRENT_TIMESTAMP].
    The table of the model is always there, as it is once the startup
    event has run, so the statement finds it and changes nothing. *)
Definition init_db : M unit := ret tt.

(** *** save_lead *)

Definition max_rowid (rows : list Row) : Z :=
  fold_left (fun m r => Z.max m (id r)) rows 0.

(** The key of the next row of an INTEGER PRIMARY KEY AUTOINCREMENT
    table: one more than the largest key the table has ever held; when
    that is the largest 64-bit integer the INSERT fails. *)
Definition largest_key (w : World) : Z :=
  Z.max (sqlite_sequence w) (max_rowid (leads w)).

Definition next_rowid (w : World) : result Z :=
  if largest_key w <? 2 ^ 63 - 1 then Ok (largest_key w + 1)
  else Raise (Sqlite3Error "database or disk is full").

Definition insert_row (r : Row) (w : World) : World :=
  {| clock := clock w; leads := leads w ++ [r];
     sqlite_sequence := id r; stdout := stdout w |}.

(** The INSERT binds the eleven values in order (the strings, the
    optional phone and the bool always bind), takes the next key, lets
    the engine fill [created_at], and commits; [c.lastrowid] is the key.
    A fault of the engine (the file locked, the disk full) raises and
    nothing is written. *)
Definition save_lead (o : Oracle) (lead_data : LeadData) : M Z :=
  fun w =>
    let done := tick (t_sqlite o) w in
    match sqlite_fault o with
    | Some e => (Raise e, done)
    | None =>
        match Sqlite.bind_param 7 (ld_lead_score lead_data),
              Sqlite.bind_param 8 (ld_intent_classification lead_data),
              Sqlite.bind_param 9 (JInt (ld_response_time_ms lead_data)),
              Sqlite.bind_param 11 (ld_ai_response lead_data) with
        | Raise e, _, _, _ => (Raise e, done)
        | _, Raise e, _, _ => (Raise e, done)
        | _, _, Raise e, _ => (Raise e, done)
        | _, _, _, Raise e => (Raise e, done)
        | Ok score, Ok intent, Ok _, Ok response =>
            match next_rowid w with
            | Raise e => (Raise e, done)
            | Ok rowid =>
                let row :=
                  {| id := rowid;
                     timestamp := ld_timestamp lead_data;
                     row_name := ld_name lead_data;
                     row_email := ld_email lead_data;
                     row_company := ld_company lead_data;
                     row_message := ld_message lead_data;
                     row_phone := ld_phone lead_data;
                     lead_score := store_as Sqlite.INTEGER score;
                     intent_classification := store_as Sqlite.TEXT intent;
                     row_response_time_ms := Some (ld_response_time_ms lead_data);
                     email_sent := ld_email_sent lead_data;
                     ai_response := store_as Sqlite.TEXT response;
                     created_at := clock w / 1000000 |} in
                (Ok rowid, insert_row row done)
            end
        end
    end.

(** *** process_lead_with_ai *)

Definition build_prompt (lead : LeadSubmission) : string :=
  String.concat PyStr.nl
    [ "You are a lead response AI. Analyze this lead and respond:";
      "";
      "Lead Information:";
      "- Name: " ++ name lead;
      "- Company: " ++ company lead;
      "- Email: " ++ email lead;
      "- Message: " ++ message lead;
      (if PyStr.truthy (phone lead)
       then "- Phone: " ++ match phone lead with Some p => p | None => "" end
       else "");
      "";
      "Tasks:";
      "1. Classify the intent (demo_request, pricing_inquiry, support_question, partnership, general_inquiry)";
      "2. Score the lead quality 1-10 (based on message clarity, company presence, urgency signals)";
      "3. Generate a warm, personalized response email (2-3 paragraphs) that:";
      "   - Addresses their specific question/need";
      "   - Demonstrates you understood their message";
      "   - Provides next steps (calendar link, demo info, etc.)";
      "   - Signs off as " ++ PyStr.dq ++ "Aurora - Lead Response AI" ++ PyStr.dq;
      "";
      "Respond in this JSON format:";
      "{";
      "  " ++ PyStr.dq ++ "intent" ++ PyStr.dq ++ ": "
           ++ PyStr.dq ++ "intent_classification" ++ PyStr.dq ++ ",";
      "  " ++ PyStr.dq ++ "score" ++ PyStr.dq ++ ": 8,";
      "  " ++ PyStr.dq ++ "response" ++ PyStr.dq ++ ": "
           ++ PyStr.dq ++ "Email body here..." ++ PyStr.dq;
      "}" ].

(** [message.content[0].text] *)
Definition content0_text (content : list ContentBlock) : M string :=
  block <- getitem content 0 ;;
  match block with
  | TextBlock text => ret text
  | OtherBlock => raise (AttributeError "'ToolUseBlock' object has no attribute 'text'")
  end.

(** The text handed to [json.loads]: what stands between the fences
    when the answer is wrapped in a code fence, the answer itself
    otherwise. *)
Definition extract_json (response_text : string) : M string :=
  if PyStr.contains "```json" response_text then
    after <- getitem (PyStr.split "```json" response_text) 1 ;;
    inner <- getitem (PyStr.split "```" after) 0 ;;
    ret (PyStr.strip inner)
  else if PyStr.contains "```" response_text then
    after <- getitem (PyStr.split "```" response_text) 1 ;;
    inner <- getitem (PyStr.split "```" after) 0 ;;
    ret (PyStr.strip inner)
  else ret response_text.

(** [ai_result.get]: only a dict has the method. *)
Definition get_method (ai_result : json) : M (string -> json -> json) :=
  match ai_result with
  | JDict items => ret (dict_get items)
  | _ => raise (AttributeError ("'" ++ type_name ai_result
                                ++ "' object has no attribute 'get'"))
  end.

Definition process_lead_with_ai (cfg : Config) (o : Oracle) (lead : LeadSubmission)
  : M Analysis :=
  if negb (PyStr.truthy (ANTHROPIC_API_KEY cfg)) then
    raise (ValueError "ANTHROPIC_API_KEY not set")
  else
    let prompt := build_prompt lead in
    content <- external (t_messages_create o) (messages_create o prompt) ;;
    response_text <- content0_text content ;;
    response_text <- extract_json response_text ;;
    ai_result <- lift (json_loads response_text) ;;
    get <- get_method ai_result ;;
    ret {| an_intent_classification := get "intent" (JStr "unknown");
           an_lead_score := get "score" (JInt 5);
           an_ai_response := get "response" (JStr "") |}.

(** *** send_email_response *)

(** [MIMEText(response_body, 'plain')] encodes its argument, which only
    a str can do. *)
Definition mime_text (response_body : json) : M string :=
  match response_body with
  | JStr body => ret body
  | _ => raise (AttributeError ("'" ++ type_name response_body
                                ++ "' object has no attribute 'encode'"))
  end.

Definition send_email_response (cfg : Config) (o : Oracle)
    (to_email to_name company : string) (response_body : json) : M bool :=
  if negb (PyStr.truthy (SMTP_USER cfg) && PyStr.truthy (SMTP_PASSWORD cfg)) then
    print "SMTP not configured, skipping email send" ;;
    ret false
  else
    try_except
      (let subject := "Re: Your inquiry from " ++ company in
       body <- mime_text response_body ;;
       external (t_smtp o) (smtp_send o to_email subject body) ;;
       ret true)
      (fun e =>
         print ("Email send failed: " ++ str_exn e) ;;
         ret false).

(** *** send_telegram_notification

    The alert text is built from keys that [lead_data] always has and
    goes nowhere but to the child process, whose answer is the oracle's;
    only the call itself can raise. *)
Definition send_telegram_notification (cfg : Config) (o : Oracle)
    (lead_data : LeadData) : M unit :=
  if negb (PyStr.truthy (TELEGRAM_CHAT_ID cfg)) then ret tt
  else
    try_except
      (external (t_subprocess o) (subprocess_run o))
      (fun e => print ("Telegram notification failed: " ++ str_exn e)).

(** *** submit_lead *)

(** [int((time.time() - start_time) * 1000)]: whole milliseconds,
    rounded towards zero.  The code does this on binary64 seconds, the
    model on exact microseconds: the code can report one millisecond
    less than the model (19 for a call of 20000 microseconds). *)
Definition elapsed_ms (start_time now : Z) : Z := Z.quot (now - start_time) 1000.

Definition mk_lead_data (lead : LeadSubmission) (ai_result : Analysis)
    (sent : bool) (elapsed now : Z) : LeadData :=
  {| ld_timestamp := now;
     ld_name := name lead;
     ld_email := email lead;
     ld_company := company lead;
     ld_message := message lead;
     ld_phone := phone lead;
     ld_lead_score := an_lead_score ai_result;
     ld_intent_classification := an_intent_classification ai_result;
     ld_response_time_ms := elapsed;
     ld_email_sent := sent;
     ld_ai_response := an_ai_response ai_result |}.

Definition submit_lead (cfg : Config) (o : Oracle) (lead : LeadSubmission)
  : M LeadResponse :=
  start_time <- time_time ;;
  try_except
    (ai_result <- process_lead_with_ai cfg o lead ;;
     email_sent <- send_email_response cfg o (email lead) (name lead) (company lead)
                     (an_ai_response ai_result) ;;
     now <- time_time ;;
     let response_time_ms := elapsed_ms start_time now in
     utcnow <- time_time ;;
     let lead_data := mk_lead_data lead ai_result email_sent response_time_ms utcnow in
     lead_id <- save_lead o lead_data ;;
     send_telegram_notification cfg o lead_data ;;
     ret {| success := true;
            reply_message := "Thank you! We've responded to " ++ email lead
                             ++ " in " ++ PyStr.str_int response_time_ms ++ "ms";
            lead_id := Some lead_id;
            response_time_ms := Some response_time_ms |})
    (fun e =>
       print ("Error processing lead: " ++ str_exn e) ;;
       raise (HTTPException 500 (str_exn e))).

(** *** get_stats *)

(** One entry of [recent_leads]; [rl_timestamp] is the column
    [created_at]. *)
Record RecentLead : Type := {
  rl_name : string;
  rl_company : string;
  rl_score : Sqlite.value;
  rl_response_time_ms : option Z;
  rl_timestamp : Z
}.

(** [email_success_rate] and the average behind [avg_response_time_ms]
    are kept as the exact quotients; the binary64 value that Python
    returns for the rate is [email_success_rate_computed] below. *)
Record Stats : Type := {
  total_leads : Z;
  avg_response_time_ms : Z;
  emails_sent : Z;
  email_success_rate : Q;
  recent_leads : list RecentLead
}.

(** SELECT COUNT( * ) ... WHERE [p]: one pass over the table. *)
Definition sql_count (p : Row -> bool) (rows : list Row) : Z :=
  fold_left (fun n r => if p r then n + 1 else n) rows 0.

(** SELECT AVG(response_time_ms) ... WHERE response_time_ms IS NOT NULL:
    NULL over no row. *)
Definition sql_avg_response_time (rows : list Row) : option Q :=
  let known := flat_map (fun r => match row_response_time_ms r with
                                  | Some t => [t]
                                  | None => []
                                  end) rows in
  match known with
  | [] => None
  | _ :: _ => Some (inject_Z (fold_left Z.add known 0%Z)
                    / inject_Z (Z.of_nat (List.length known)))%Q
  end.

(** [int(x)] of a rational: rounding towards zero. *)
Definition int_of_Q (x : Q) : Z := Z.quot (Qnum x) (Z.pos (Qden x)).

(** ORDER BY created_at DESC.  SQLite sorts on the key followed by the
    position of the row in the scan, so rows of one second stay in rowid
    order. *)
Fixpoint insert_desc (r : Row) (sorted : list Row) : list Row :=
  match sorted with
  | [] => [r]
  | x :: rest =>
      if created_at x <=? created_at r then r :: sorted
      else x :: insert_desc r rest
  end.

Definition order_by_created_at_desc (rows : list Row) : list Row :=
  fold_right insert_desc [] rows.

Definition recent_of_row (r : Row) : RecentLead :=
  {| rl_name := row_name r;
     rl_company := row_company r;
     rl_score := lead_score r;
     rl_response_time_ms := row_response_time_ms r;
     rl_timestamp := created_at r |}.

Definition get_stats (w : World) : Stats :=
  let total_leads := sql_count (fun _ => true) (leads w) in
  let avg_response := match sql_avg_response_time (leads w) with
                      | Some avg => avg
                      | None => 0%Q
                      end in
  let emails_sent := sql_count email_sent (leads w) in
  let recent_leads :=
    map recent_of_row (firstn 10 (order_by_created_at_desc (leads w))) in
  {| total_leads := total_leads;
     avg_response_time_ms := int_of_Q avg_response;
     emails_sent := emails_sent;
     email_success_rate :=
       if 0 <? total_leads
       then (inject_Z emails_sent / inject_Z total_leads * 100)%Q
       else 0%Q;
     recent_leads := recent_leads |}.

(** *** A run of the server: requests handled one after the other
    against the same table. *)
Fixpoint serve (cfg : Config) (requests : list (Oracle * LeadSubmission)) (w : World)
  : list (result LeadResponse) * World :=
  match requests with
  | [] => ([], w)
  | (o, lead) :: rest =>
      let (r, w1) := submit_lead cfg o lead w in
      let (rs, w2) := serve cfg rest w1 in
      (r :: rs, w2)
  end.

(** The identifiers handed out by the accepted requests of a run. *)
Definition accepted_ids (outcomes : list (result LeadResponse)) : list Z :=
  flat_map (fun r => match r with
                     | Ok {| lead_id := Some i |} => [i]
                     | _ => []
                     end) outcomes.

End App.

Arguments build_prompt : simpl never.

(** ** Variations of a configuration and of an oracle *)

(** The same configuration with another notification destination. *)
Definition with_chat_id (chat : option string) (cfg : Config) : Config :=
  {| ANTHROPIC_API_KEY := ANTHROPIC_API_KEY cfg;
     SMTP_USER := SMTP_USER cfg;
     SMTP_PASSWORD := SMTP_PASSWORD cfg;
     TELEGRAM_CHAT_ID := chat |}.

(** The same oracle with another answer and duration of the
    notification child process. *)
Definition with_subprocess (r : result unit) (t : Z) (o : Oracle) : Oracle :=
  {| messages_create := messages_create o;
     t_messages_create := t_messages_create o;
     smtp_send := smtp_send o;
     t_smtp := t_smtp o;
     sqlite_fault := sqlite_fault o;
     t_sqlite := t_sqlite o;
     subprocess_run := r;
     t_subprocess := t |}.


(** Whether [send_email_response] reaches the mail transport. *)
Definition smtp_attempted (cfg : Config) (response_body : json) : bool :=
  PyStr.truthy (SMTP_USER cfg) && PyStr.truthy (SMTP_PASSWORD cfg) &&
  match response_body with
  | JStr _ => true
  | _ => false
  end.

(** Two oracles that differ at most in the answer of the notification
    child process and in how long it and the database work take. *)
Definition same_but_store_and_notifier_time (o o' : Oracle) : Prop :=
  messages_create o' = messages_create o /\
  t_messages_create o' = t_messages_create o /\
  smtp_send o' = smtp_send o /\
  t_smtp o' = t_smtp o /\
  sqlite_fault o' = sqlite_fault o.

(** The order of ORDER BY created_at DESC. *)
Definition newer_first (a b : Row) : Prop := created_at b <= created_at a.

(** The table and the key counter are the same in [w'] as in [w]. *)
Definition same_table (w w' : World) : Prop :=
  leads w' = leads w /\ sqlite_sequence w' = sqlite_sequence w.

(** The intents the prompt asks the model to choose from, and the
    default of the module. *)
Definition intent_enumeration : list string :=
  ["demo_request"; "pricing_inquiry"; "support_question"; "partnership";
   "general_inquiry"; "unknown"].

(** ** Notions used to state further properties *)

(** The character that makes a code fence. *)
Definition backtick : ascii := "`"%char.

(** [s] holds no backtick. *)
Fixpoint no_backtick (s : string) : bool :=
  match s with
  | EmptyString => true
  | String c r => negb (Ascii.eqb c backtick) && no_backtick r
  end.

(** [s] begins with a backtick. *)
Definition starts_with_backtick (s : string) : bool :=
  match s with
  | EmptyString => false
  | String c _ => Ascii.eqb c backtick
  end.

(** A Python value that the sqlite3 module refuses to bind whatever
    its content. *)
Definition unbindable (v : json) : bool :=
  match v with
  | JList _ | JDict _ => true
  | _ => false
  end.

(** The keys of the table strictly increase along it and none is
    above the counter of the AUTOINCREMENT key. *)
Definition well_keyed (w : World) : Prop :=
  StronglySorted Z.lt (map id (leads w)) /\
  Forall (fun r => id r <= sqlite_sequence w) (leads w).

(** The known response times of the table. *)
Definition known_times (rows : list Row) : list Z :=
  flat_map (fun r => match row_response_time_ms r with
                     | Some t => [t]
                     | None => []
                     end) rows.

(** *** Python's floats *)

Module Binary64.


(** An int taken as it is, before any rounding. *)
Definition exact (n : Z) : spec_float :=
  match n with
  | Z0 => S754_zero false
  | Zpos p => S754_finite false p 0
  | Zneg p => S754_finite true p 0
  end.



(** The number a float stands for, when it is one. *)
Definition value (f : spec_float) : option Q :=
  match f with
  | S754_zero _ => Some 0%Q
  | S754_finite s m e =>
      Some ((if s then - inject_Z (Z.pos m) else inject_Z (Z.pos m)) * 2 ^ e)%Q
  | S754_infinity _ | S754_nan => None
  end.

End Binary64.


(** ** Sample data for the examples *)

Module Sample.

Definition q (s : string) : string := PyStr.dq ++ s ++ PyStr.dq.

(** {"intent": "demo_request", "score": 9, "response": "Hi Ana..."} *)
Definition doc_demo : string :=
  "{" ++ q "intent" ++ ": " ++ q "demo_request" ++ ", " ++ q "score" ++ ": 9, "
      ++ q "response" ++ ": " ++ q "Hi Ana..." ++ "}".

(** {"intent": "bogus_value", "score": 11} *)
Definition doc_bogus : string :=
  "{" ++ q "intent" ++ ": " ++ q "bogus_value" ++ ", " ++ q "score" ++ ": 11}".

(** {"intent": 7, "score": "high", "response": null} *)
Definition doc_wrong_types : string :=
  "{" ++ q "intent" ++ ": 7, " ++ q "score" ++ ": " ++ q "high" ++ ", "
      ++ q "response" ++ ": null}".

Definition doc_empty : string := "{}".

Definition not_json : string := "Sorry, I cannot help with that.".

(** [json.loads] on the documents above; any other text of the examples
    is not JSON. *)
Definition loads (s : string) : result json :=
  if String.eqb s doc_demo then
    Ok (JDict [("intent", JStr "demo_request"); ("score", JInt 9);
               ("response", JStr "Hi Ana...")])
  else if String.eqb s doc_bogus then
    Ok (JDict [("intent", JStr "bogus_value"); ("score", JInt 11)])
  else if String.eqb s doc_wrong_types then
    Ok (JDict [("intent", JInt 7); ("score", JStr "high"); ("response", JNull)])
  else if String.eqb s doc_empty then Ok (JDict [])
  else Raise (JSONDecodeError "Expecting value: line 1 column 1 (char 0)").

(** The examples store integers in INTEGER columns and text in TEXT
    columns only, where the affinity changes nothing. *)
Definition coerce (a : Sqlite.affinity) (v : Sqlite.value) : Sqlite.value := v.

Definition cfg_no_smtp : Config :=
  {| ANTHROPIC_API_KEY := Some "sk-test";
     SMTP_USER := None;
     SMTP_PASSWORD := None;
     TELEGRAM_CHAT_ID := Some "42" |}.

Definition cfg_full : Config :=
  {| ANTHROPIC_API_KEY := Some "sk-test";
     SMTP_USER := Some "aurora@example.com";
     SMTP_PASSWORD := Some "secret";
     TELEGRAM_CHAT_ID := Some "42" |}.

(** An oracle whose provider answers [text] after [t] microseconds and
    whose other calls succeed. *)
Definition answering (text : string) (t : Z) : Oracle :=
  {| messages_create := fun _ => Ok [TextBlock text];
     t_messages_create := t;
     smtp_send := fun _ _ _ => Ok tt;
     t_smtp := 200000;
     sqlite_fault := None;
     t_sqlite := 3000;
     subprocess_run := Ok tt;
     t_subprocess := 100000 |}.

(** The provider times out. *)
Definition timing_out : Oracle :=
  {| messages_create := fun _ => Raise (APIError "Request timed out.");
     t_messages_create := 600000000;
     smtp_send := fun _ _ _ => Ok tt;
     t_smtp := 200000;
     sqlite_fault := None;
     t_sqlite := 3000;
     subprocess_run := Ok tt;
     t_subprocess := 100000 |}.

(** The answer wrapped in a tagged code fence. *)
Definition fenced (doc : string) : string :=
  "Here is the analysis:" ++ PyStr.nl ++ "```json" ++ PyStr.nl ++ doc
  ++ PyStr.nl ++ "```" ++ PyStr.nl.

Definition ana : LeadSubmission :=
  {| name := "Ana";
     email := "ana@x.com";
     company := "Acme";
     message := "We need a demo ASAP, 500 seats";
     phone := None |}.

Definition named (n : string) : LeadSubmission :=
  {| name := n;
     email := "lead@x.com";
     company := "Acme";
     message := "We need a demo ASAP, 500 seats";
     phone := Some "555-0100" |}.

Definition fifteen : list LeadSubmission :=
  map named ["L01"; "L02"; "L03"; "L04"; "L05"; "L06"; "L07"; "L08"; "L09"; "L10";
             "L11"; "L12"; "L13"; "L14"; "L15"].

(** The start of some second, in microseconds. *)
Definition t0 : Z := 1700000000000000.

(** Stubbed collaborators that answer within milliseconds. *)
Definition quick : Oracle :=
  {| messages_create := fun _ => Ok [TextBlock doc_demo];
     t_messages_create := 20000;
     smtp_send := fun _ _ _ => Ok tt;
     t_smtp := 0;
     sqlite_fault := None;
     t_sqlite := 1000;
     subprocess_run := Ok tt;
     t_subprocess := 5000 |}.

(** A provider that needs a second and a half. *)
Definition slow : Oracle := answering doc_demo 1500000.

(** Fifteen leads accepted one after the other under the oracle [o],
    starting from an empty table. *)
Definition after_fifteen (o : Oracle) : World :=
  snd (serve loads coerce cfg_no_smtp (map (fun l => (o, l)) fifteen)
         (initial_world t0)).

(** Ana's request with the mail transport configured and a fenced
    answer, and the envelope it gets. *)
Definition ana_oracle : Oracle := answering (fenced doc_demo) 1500000.

Definition ana_accepted : LeadResponse :=
  {| success := true;
     reply_message := "Thank you! We've responded to ana@x.com in 1700ms";
     lead_id := Some 1;
     response_time_ms := Some 1700 |}.


(** {"score": [1, 2]} *)
Definition doc_list_score : string := "{" ++ q "score" ++ ": [1, 2]}".

(** [json.loads] on one more document. *)
Definition loads_more (s : string) : result json :=
  if String.eqb s doc_list_score then
    Ok (JDict [("score", JList [JInt 1; JInt 2])])
  else loads s.



End Sample.

(** ** Checks of the model on concrete inputs *)

Example split_ex1 : PyStr.split "```" "a```b```c" = ["a"; "b"; "c"].
Proof. reflexivity. Qed.
Example split_ex2 : PyStr.split "```json" "x```json{}```" = ["x"; "{}```"].
Proof. reflexivity. Qed.
Example split_ex3 : PyStr.split "```" "a```" = ["a"; ""].
Proof. reflexivity. Qed.
Example split_ex4 : PyStr.split "ab" "aabab" = ["a"; ""; ""].
Proof. reflexivity. Qed.
Example strip_ex1 : PyStr.strip (PyStr.nl ++ "  {1} " ++ PyStr.nl) = "{1}".
Proof. reflexivity. Qed.
Example strip_ex2 : PyStr.strip "a b " = "a b".
Proof. reflexivity. Qed.
Example str_ex : PyStr.str_int (-5) = "-5" /\ PyStr.str_int 0 = "0" /\ PyStr.str_int 1234 = "1234".
Proof. repeat split; reflexivity. Qed.

Example run_ana :
  fst (submit_lead Sample.loads Sample.coerce Sample.cfg_full
         (Sample.answering (Sample.fenced Sample.doc_demo) 1500000)
         Sample.ana (initial_world Sample.t0))
  = Ok {| success := true;
          reply_message := "Thank you! We've responded to ana@x.com in 1700ms";
          lead_id := Some 1;
          response_time_ms := Some 1700 |}.
Proof. vm_compute. reflexivity. Qed.

Example stored_ana :
  map (fun r => (intent_classification r, lead_score r, email_sent r))
      (leads (snd (submit_lead Sample.loads Sample.coerce Sample.cfg_full
                     (Sample.answering (Sample.fenced Sample.doc_demo) 1500000)
                     Sample.ana (initial_world Sample.t0))))
  = [(Sqlite.Text "demo_request", Sqlite.Integer 9, true)].
Proof. vm_compute. reflexivity. Qed.

Example run_timeout :
  fst (submit_lead Sample.loads Sample.coerce Sample.cfg_full Sample.timing_out
         Sample.ana (initial_world Sample.t0))
  = Raise (HTTPException 500 "Request timed out.").
Proof. vm_compute. reflexivity. Qed.

(** ** Facts about the string operations *)

Lemma space_prefix_shorter (s r : string) :
  PyStr.space_prefix s = Some r -> (String.length r < String.length s)%nat.
Proof.
  unfold PyStr.space_prefix.
  destruct s as [|c1 [|c2 [|c3 r3]]]; simpl;
    repeat match goal with
           | |- context [if ?b then _ else _] => destruct b
           end.
  all: intro E; first [discriminate E | injection E as <-; simpl; lia].
Qed.

Lemma lstrip_fuel_done (fuel : nat) :
  forall s, (String.length s <= fuel)%nat ->
            PyStr.space_prefix (PyStr.lstrip_fuel fuel s) = None.
Proof.
  induction fuel as [|fuel IH]; intros s Hlen.
  - destruct s; [reflexivity | simpl in Hlen; lia].
  - simpl. destruct (PyStr.space_prefix s) as [r|] eqn:E; [|exact E].
    apply IH. apply space_prefix_shorter in E. lia.
Qed.

(** The fuel of [lstrip] never runs out: what it returns starts with no
    white space. *)
Lemma lstrip_done (s : string) : PyStr.space_prefix (PyStr.lstrip s) = None.
Proof. apply lstrip_fuel_done. apply Nat.le_refl. Qed.

Lemma split_from_nonempty (sep : string) :
  forall s skip cur, PyStr.split_from sep skip cur s <> [].
Proof.
  induction s as [|c s IH]; intros skip cur; destruct skip;
    cbn [PyStr.split_from]; try discriminate; try apply IH.
  - destruct (prefix sep EmptyString); discriminate.
  - destruct (prefix sep (String c s)); [discriminate | apply IH].
Qed.

(** When [sep in s], [s.split(sep)] has a second part. *)
Lemma split_second (sep : string) :
  forall s cur, PyStr.contains sep s = true ->
                exists a b rest, PyStr.split_from sep O cur s = a :: b :: rest.
Proof.
  induction s as [|c s IH]; intros cur H.
  - cbn [PyStr.contains] in H. rewrite orb_false_r in H.
    cbn [PyStr.split_from]. rewrite H. eauto.
  - cbn [PyStr.contains] in H. cbn [PyStr.split_from].
    destruct (prefix sep (String c s)) eqn:P.
    + pose proof (split_from_nonempty sep s (String.length sep - 1) EmptyString) as N.
      destruct (PyStr.split_from sep (String.length sep - 1) EmptyString s) as [|b rest];
        [contradiction | eauto].
    + simpl in H. apply IH. exact H.
Qed.

Lemma split_first (sep s : string) :
  exists a rest, PyStr.split sep s = a :: rest.
Proof.
  pose proof (split_from_nonempty sep s O EmptyString) as N. unfold PyStr.split.
  destruct (PyStr.split_from sep O EmptyString s) as [|a rest]; [contradiction | eauto].
Qed.

(** ** Facts about dict lookup *)

Lemma dict_lookup_snoc (items : list (string * json)) (k : string) (v : json)
      (key : string) :
  dict_lookup (items ++ [(k, v)]) key
  = if String.eqb k key then Some v else dict_lookup items key.
Proof. unfold dict_lookup. rewrite fold_left_app. reflexivity. Qed.

(** A key that the dict does not have is not found... *)
Lemma dict_lookup_none (items : list (string * json)) (key : string) :
  dict_lookup items key = None <-> ~ In key (map fst items).
Proof.
  induction items as [|[k v] items IH] using rev_ind.
  - cbn. tauto.
  - rewrite dict_lookup_snoc, map_app, in_app_iff. cbn [map fst In].
    destruct (String.eqb_spec k key) as [->|N].
    + split; [discriminate | intro H; exfalso; apply H; auto].
    + rewrite IH. tauto.
Qed.

(** ... and what is found is a member of the dict. *)
Lemma dict_lookup_some (items : list (string * json)) (key : string) (v : json) :
  dict_lookup items key = Some v -> In (key, v) items.
Proof.
  induction items as [|[k x] items IH] using rev_ind.
  - discriminate.
  - rewrite dict_lookup_snoc, in_app_iff. cbn [In].
    destruct (String.eqb_spec k key) as [->|N].
    + intro H. injection H as ->. auto.
    + intro H. left. apply IH. exact H.
Qed.

(** ** Facts about the steps of the pipeline *)

(** Case analysis on the next monadic step in the goal or in [H]. *)
Ltac run_in H :=
  repeat match type of H with
         | context [match ?x with _ => _ end] => destruct x eqn:?
         | context [if ?b then _ else _] => destruct b eqn:?
         end.

Ltac pair_eq H := injection H; clear H; intros; subst.

Create HintDb table discriminated.

Lemma same_table_refl (w : World) : same_table w w.
Proof. split; reflexivity. Qed.

Lemma same_table_trans (w1 w2 w3 : World) :
  same_table w1 w2 -> same_table w2 w3 -> same_table w1 w3.
Proof. intros [A B] [C D]. split; congruence. Qed.

Lemma same_table_tick (d : Z) (w : World) : same_table w (tick d w).
Proof. split; reflexivity. Qed.

Lemma same_table_print (s : string) (w : World) : same_table w (snd (print s w)).
Proof. split; reflexivity. Qed.

#[local] Hint Resolve same_table_refl same_table_tick same_table_print : table.

(** The fence is always found where the membership test saw it: no
    index is out of range, and the state is not touched. *)
Lemma extract_json_total (response_text : string) :
  exists doc, forall w, extract_json response_text w = (Ok doc, w).
Proof.
  unfold extract_json.
  destruct (PyStr.contains "```json" response_text) eqn:C1.
  - destruct (split_second _ _ EmptyString C1) as (a & b & rest & E).
    unfold PyStr.split at 1. rewrite E.
    destruct (split_first "```" b) as (x & xs & F).
    unfold bind, getitem, ret. cbn [nth_error]. rewrite F. cbn [nth_error]. eauto.
  - destruct (PyStr.contains "```" response_text) eqn:C2.
    + destruct (split_second _ _ EmptyString C2) as (a & b & rest & E).
      unfold PyStr.split at 1. rewrite E.
      destruct (split_first "```" b) as (x & xs & F).
      unfold bind, getitem, ret. cbn [nth_error]. rewrite F. cbn [nth_error]. eauto.
    + unfold ret. eauto.
Qed.

Section Steps.

Variable json_loads : string -> result json.
Variable affinity_coerce : Sqlite.affinity -> Sqlite.value -> Sqlite.value.

(** The Analyzer leaves the table and the log alone, and takes the time
    of the provider call when it gets that far. *)
Lemma analyzer_effect cfg o lead w r w1 :
  process_lead_with_ai json_loads cfg o lead w = (r, w1) ->
  same_table w w1 /\ stdout w1 = stdout w /\
  clock w1 = clock w + (if PyStr.truthy (ANTHROPIC_API_KEY cfg)
                        then t_messages_create o else 0).
Proof.
  unfold process_lead_with_ai. intro H.
  destruct (PyStr.truthy (ANTHROPIC_API_KEY cfg)); cbn [negb] in H.
  - unfold bind, external in H.
    assert (G : same_table w (tick (t_messages_create o) w) /\
                stdout (tick (t_messages_create o) w) = stdout w /\
                clock (tick (t_messages_create o) w) = clock w + t_messages_create o)
      by (repeat split; reflexivity).
    revert H G. generalize (tick (t_messages_create o) w) as w0. intros w0 H G.
    destruct (messages_create o (build_prompt lead)) as [content|e];
      [|pair_eq H; exact G].
    unfold content0_text, bind, getitem in H.
    destruct (nth_error content 0) as [[text|]|]; unfold ret, raise in H;
      try (pair_eq H; exact G).
    destruct (extract_json_total text) as [doc E]. rewrite E in H.
    unfold lift in H.
    destruct (json_loads doc) as [v|e]; [|pair_eq H; exact G].
    destruct v; cbn in H; pair_eq H; exact G.
  - unfold raise in H. pair_eq H. rewrite Z.add_0_r. auto with table.
Qed.

(** The Responder never raises; it leaves the table alone and takes the
    time of the transport when it reaches it. *)
Lemma responder_effect cfg o to_email to_name co body w :
  exists sent w2,
    send_email_response cfg o to_email to_name co body w = (Ok sent, w2) /\
    same_table w w2 /\
    clock w2 = clock w + (if smtp_attempted cfg body then t_smtp o else 0).
Proof.
  unfold send_email_response, smtp_attempted.
  destruct (PyStr.truthy (SMTP_USER cfg) && PyStr.truthy (SMTP_PASSWORD cfg));
    cbn [negb andb].
  - unfold try_except, bind, mime_text.
    destruct body as [| | | |s| |];
      try (cbn; eexists; eexists; split; [reflexivity|];
           split; [split; reflexivity | cbn; lia]).
    unfold ret, external.
    destruct (smtp_send o to_email ("Re: Your inquiry from " ++ co) s) as [[]|e];
      cbn -[String.append];
      eexists; eexists; (split; [reflexivity|]);
      (split; [split; reflexivity | reflexivity]).
  - cbn. eexists; eexists. split; [reflexivity|].
    split; [split; reflexivity | cbn; lia].
Qed.

(** The Notifier never raises and leaves the table alone. *)
Lemma notifier_effect cfg o lead_data w :
  exists w', send_telegram_notification cfg o lead_data w = (Ok tt, w') /\
             same_table w w'.
Proof.
  unfold send_telegram_notification.
  destruct (PyStr.truthy (TELEGRAM_CHAT_ID cfg)); cbn [negb].
  - unfold try_except, external.
    destruct (subprocess_run o) as [[]|e]; cbn; eexists; split;
      try reflexivity; split; reflexivity.
  - eexists. split; [reflexivity | auto with table].
Qed.

(** A successful INSERT appends one row, keyed above every key the
    table has held. *)
Lemma save_lead_ok o lead_data w i w' :
  save_lead affinity_coerce o lead_data w = (Ok i, w') ->
  exists row,
    leads w' = (leads w ++ [row])%list /\ sqlite_sequence w' = i /\ id row = i /\
    largest_key w < i /\
    email_sent row = ld_email_sent lead_data /\
    row_response_time_ms row = Some (ld_response_time_ms lead_data) /\
    created_at row = clock w / 1000000 /\
    clock w' = clock w + t_sqlite o.
Proof.
  unfold save_lead, next_rowid. intro H. run_in H; try discriminate.
  pair_eq H. eexists. cbn. repeat split; try reflexivity.
  match goal with E : (if ?b then _ else _) = Ok _ |- _ =>
    destruct b; [injection E as <-; lia | discriminate E] end.
Qed.

(** A failed INSERT leaves the table as it was. *)
Lemma save_lead_raise o lead_data w e w' :
  save_lead affinity_coerce o lead_data w = (Raise e, w') -> same_table w w'.
Proof.
  unfold save_lead. intro H. run_in H; try discriminate; pair_eq H; auto with table.
Qed.

End Steps.

(** ** Facts about the handler *)

Section Handler.

Variable json_loads : string -> result json.
Variable affinity_coerce : Sqlite.affinity -> Sqlite.value -> Sqlite.value.

(** The handler written out as the four calls it makes. *)
Lemma submit_lead_steps cfg o lead w :
  submit_lead json_loads affinity_coerce cfg o lead w =
  match process_lead_with_ai json_loads cfg o lead w with
  | (Raise e, w1) =>
      (Raise (HTTPException 500 (str_exn e)),
       snd (print ("Error processing lead: " ++ str_exn e) w1))
  | (Ok ai_result, w1) =>
      match send_email_response cfg o (email lead) (name lead) (company lead)
              (an_ai_response ai_result) w1 with
      | (Raise e, w2) =>
          (Raise (HTTPException 500 (str_exn e)),
           snd (print ("Error processing lead: " ++ str_exn e) w2))
      | (Ok sent, w2) =>
          let elapsed := elapsed_ms (clock w) (clock w2) in
          let lead_data := mk_lead_data lead ai_result sent elapsed (clock w2) in
          match save_lead affinity_coerce o lead_data w2 with
          | (Raise e, w3) =>
              (Raise (HTTPException 500 (str_exn e)),
               snd (print ("Error processing lead: " ++ str_exn e) w3))
          | (Ok new_id, w3) =>
              match send_telegram_notification cfg o lead_data w3 with
              | (Raise e, w4) =>
                  (Raise (HTTPException 500 (str_exn e)),
                   snd (print ("Error processing lead: " ++ str_exn e) w4))
              | (Ok _, w4) =>
                  (Ok {| success := true;
                         reply_message := "Thank you! We've responded to " ++ email lead
                                          ++ " in " ++ PyStr.str_int elapsed ++ "ms";
                         lead_id := Some new_id;
                         response_time_ms := Some elapsed |}, w4)
              end
          end
      end
  end.
Proof.
  unfold submit_lead, try_except, bind, time_time, ret, raise.
  destruct (process_lead_with_ai json_loads cfg o lead w) as [[ai|e] w1];
    [|reflexivity].
  destruct (send_email_response cfg o (email lead) (name lead) (company lead)
              (an_ai_response ai) w1) as [[sent|e] w2]; [|reflexivity].
  cbv zeta.
  destruct (save_lead affinity_coerce o _ w2) as [[i|e] w3]; [|reflexivity].
  destruct (send_telegram_notification cfg o _ w3) as [[[]|e] w4]; reflexivity.
Qed.

(** An accepted request went through the four calls. *)
Lemma submit_lead_ok_inv cfg o lead w resp w' :
  submit_lead json_loads affinity_coerce cfg o lead w = (Ok resp, w') ->
  exists ai_result w1 sent w2 new_id w3,
    process_lead_with_ai json_loads cfg o lead w = (Ok ai_result, w1) /\
    send_email_response cfg o (email lead) (name lead) (company lead)
      (an_ai_response ai_result) w1 = (Ok sent, w2) /\
    save_lead affinity_coerce o
      (mk_lead_data lead ai_result sent (elapsed_ms (clock w) (clock w2)) (clock w2))
      w2 = (Ok new_id, w3) /\
    send_telegram_notification cfg o
      (mk_lead_data lead ai_result sent (elapsed_ms (clock w) (clock w2)) (clock w2))
      w3 = (Ok tt, w') /\
    resp = {| success := true;
              reply_message := "Thank you! We've responded to " ++ email lead
                               ++ " in "
                               ++ PyStr.str_int (elapsed_ms (clock w) (clock w2))
                               ++ "ms";
              lead_id := Some new_id;
              response_time_ms := Some (elapsed_ms (clock w) (clock w2)) |}.
Proof.
  rewrite submit_lead_steps. intro H.
  destruct (process_lead_with_ai json_loads cfg o lead w) as [[ai|e] w1] eqn:A;
    [|discriminate H].
  destruct (send_email_response cfg o (email lead) (name lead) (company lead)
              (an_ai_response ai) w1) as [[sent|e] w2] eqn:R; [|discriminate H].
  cbv zeta in H.
  destruct (save_lead affinity_coerce o _ w2) as [[i|e] w3] eqn:S; [|discriminate H].
  destruct (send_telegram_notification cfg o _ w3) as [[[]|e] w4] eqn:N;
    [|discriminate H].
  pair_eq H. exists ai, w1, sent, w2, i, w3. repeat split; assumption.
Qed.

(** A rejected request left the table as it was and answers 500. *)
Lemma submit_lead_raise_inv cfg o lead w e w' :
  submit_lead json_loads affinity_coerce cfg o lead w = (Raise e, w') ->
  same_table w w' /\ exists cause, e = HTTPException 500 (str_exn cause).
Proof.
  rewrite submit_lead_steps. intro H.
  destruct (process_lead_with_ai json_loads cfg o lead w) as [[ai|x] w1] eqn:A.
  - apply analyzer_effect in A. destruct A as (T1 & _).
    destruct (responder_effect cfg o (email lead) (name lead) (company lead)
                (an_ai_response ai) w1) as (sent & w2 & R & T2 & _).
    rewrite R in H. cbv zeta in H.
    destruct (save_lead affinity_coerce o _ w2) as [[i|x] w3] eqn:S.
    + destruct (notifier_effect cfg o
                  (mk_lead_data lead ai sent (elapsed_ms (clock w) (clock w2)) (clock w2))
                  w3) as (w4 & N & _).
      rewrite N in H. discriminate H.
    + apply save_lead_raise in S. pair_eq H. split; [|eauto].
      eauto using same_table_trans, same_table_print.
  - apply analyzer_effect in A. destruct A as (T1 & _).
    pair_eq H. split; [|eauto].
    eauto using same_table_trans, same_table_print.
Qed.

End Handler.

(** ** What the handler does not depend on *)

Section Insensitive.

Variable json_loads : string -> result json.
Variable affinity_coerce : Sqlite.affinity -> Sqlite.value -> Sqlite.value.

Lemma analyzer_agree cfg chat o o' lead :
  messages_create o' = messages_create o ->
  t_messages_create o' = t_messages_create o ->
  process_lead_with_ai json_loads (with_chat_id chat cfg) o' lead
  = process_lead_with_ai json_loads cfg o lead.
Proof.
  intros A B. unfold process_lead_with_ai. cbn [with_chat_id ANTHROPIC_API_KEY].
  rewrite A, B. reflexivity.
Qed.

Lemma responder_agree cfg chat o o' to_email to_name co body :
  smtp_send o' = smtp_send o ->
  t_smtp o' = t_smtp o ->
  send_email_response (with_chat_id chat cfg) o' to_email to_name co body
  = send_email_response cfg o to_email to_name co body.
Proof.
  intros A B. unfold send_email_response.
  cbn [with_chat_id SMTP_USER SMTP_PASSWORD]. rewrite A, B. reflexivity.
Qed.

(** How long the database work takes changes neither the answer of
    [save_lead] nor the table it leaves. *)
Lemma save_agree o o' lead_data w :
  sqlite_fault o' = sqlite_fault o ->
  fst (save_lead affinity_coerce o' lead_data w)
  = fst (save_lead affinity_coerce o lead_data w) /\
  same_table (snd (save_lead affinity_coerce o lead_data w))
             (snd (save_lead affinity_coerce o' lead_data w)).
Proof.
  intro A. unfold save_lead. rewrite A.
  destruct (sqlite_fault o); [split; [reflexivity | split; reflexivity]|].
  destruct (Sqlite.bind_param 7 (ld_lead_score lead_data));
    destruct (Sqlite.bind_param 8 (ld_intent_classification lead_data));
    destruct (Sqlite.bind_param 9 (JInt (ld_response_time_ms lead_data)));
    destruct (Sqlite.bind_param 11 (ld_ai_response lead_data));
    try (split; [reflexivity | split; reflexivity]).
  destruct (next_rowid w); split; try reflexivity; split; reflexivity.
Qed.

Lemma submit_lead_insensitive cfg chat o o' lead w :
  same_but_store_and_notifier_time o o' ->
  fst (submit_lead json_loads affinity_coerce (with_chat_id chat cfg) o' lead w)
  = fst (submit_lead json_loads affinity_coerce cfg o lead w) /\
  same_table (snd (submit_lead json_loads affinity_coerce cfg o lead w))
             (snd (submit_lead json_loads affinity_coerce (with_chat_id chat cfg)
                     o' lead w)).
Proof.
  intros (A & B & C & D & E). rewrite !submit_lead_steps.
  rewrite (analyzer_agree cfg chat o o' lead A B).
  destruct (process_lead_with_ai json_loads cfg o lead w) as [[ai|e] w1];
    [|split; [reflexivity | split; reflexivity]].
  rewrite (responder_agree cfg chat o o' _ _ _ _ C D).
  destruct (send_email_response cfg o (email lead) (name lead) (company lead)
              (an_ai_response ai) w1) as [[sent|e] w2];
    [|split; [reflexivity | split; reflexivity]].
  cbv zeta.
  set (lead_data := mk_lead_data lead ai sent (elapsed_ms (clock w) (clock w2)) (clock w2)).
  destruct (save_agree o o' lead_data w2 E) as (F & G).
  destruct (save_lead affinity_coerce o lead_data w2) as [[i|e] w3];
    destruct (save_lead affinity_coerce o' lead_data w2) as [[i'|e'] w3'];
    cbn [fst snd] in F, G; try discriminate F.
  - injection F as ->.
    destruct (notifier_effect cfg o lead_data w3) as (w4 & N & T).
    destruct (notifier_effect (with_chat_id chat cfg) o' lead_data w3') as (w4' & N' & T').
    rewrite N, N'. cbn [fst snd]. split; [reflexivity|].
    destruct G as [G1 G2], T as [T1 T2], T' as [T1' T2']. split; congruence.
  - injection F as ->. cbn [fst snd]. split; [reflexivity|].
    destruct G as [G1 G2]. split; cbn; congruence.
Qed.

End Insensitive.

(** ** The Lead Analyzer *)

Section Analyzer.

Variable json_loads : string -> result json.

(** Without an API key the Analyzer raises before calling anyone. *)
Lemma analyzer_raises_without_key cfg o lead w :
  PyStr.truthy (ANTHROPIC_API_KEY cfg) = false ->
  process_lead_with_ai json_loads cfg o lead w
  = (Raise (ValueError "ANTHROPIC_API_KEY not set"), w).
Proof. intro K. unfold process_lead_with_ai. rewrite K. reflexivity. Qed.

(** What the provider client raises, a timeout included, comes out of
    the Analyzer as it is. *)
Lemma analyzer_raises_on_provider_error cfg o lead w e :
  PyStr.truthy (ANTHROPIC_API_KEY cfg) = true ->
  messages_create o (build_prompt lead) = Raise e ->
  process_lead_with_ai json_loads cfg o lead w
  = (Raise e, tick (t_messages_create o) w).
Proof.
  intros K P. unfold process_lead_with_ai, bind, external.
  rewrite K, P. reflexivity.
Qed.

(** The Analyzer on an answer whose first block is the text [text], as
    a function of what [json.loads] makes of the text between the
    fences. *)
Lemma analyzer_on_text cfg o lead w text rest :
  PyStr.truthy (ANTHROPIC_API_KEY cfg) = true ->
  messages_create o (build_prompt lead) = Ok (TextBlock text :: rest) ->
  exists doc,
    (forall w0, extract_json text w0 = (Ok doc, w0)) /\
    process_lead_with_ai json_loads cfg o lead w =
    (match json_loads doc with
     | Raise e => Raise e
     | Ok (JDict items) =>
         Ok {| an_intent_classification := dict_get items "intent" (JStr "unknown");
               an_lead_score := dict_get items "score" (JInt 5);
               an_ai_response := dict_get items "response" (JStr "") |}
     | Ok v => Raise (AttributeError ("'" ++ type_name v
                                      ++ "' object has no attribute 'get'"))
     end, tick (t_messages_create o) w).
Proof.
  intros K P. destruct (extract_json_total text) as [doc E].
  exists doc. split; [exact E|].
  unfold process_lead_with_ai, bind, external, content0_text, getitem.
  rewrite K, P. cbn [negb nth_error]. unfold bind, ret. rewrite E.
  unfold lift. destruct (json_loads doc) as [v|e]; [|reflexivity].
  destruct v; reflexivity.
Qed.

(** C5 (as amended). With the API key set and a text answer from the
    provider, the Analyzer fails exactly when the text between the
    fences is not JSON or is JSON but not an object.  For every object
    it succeeds: a missing intent, score or response reads as "unknown",
    5 or the empty text, and a value that is present is returned as it
    is, whatever its type, its intent or its score. *)
Theorem analyzer_outcome cfg o lead w text rest :
  PyStr.truthy (ANTHROPIC_API_KEY cfg) = true ->
  messages_create o (build_prompt lead) = Ok (TextBlock text :: rest) ->
  exists doc,
    (forall w0, extract_json text w0 = (Ok doc, w0)) /\
    fst (process_lead_with_ai json_loads cfg o lead w) =
    match json_loads doc with
    | Raise e => Raise e
    | Ok (JDict items) =>
        Ok {| an_intent_classification := dict_get items "intent" (JStr "unknown");
              an_lead_score := dict_get items "score" (JInt 5);
              an_ai_response := dict_get items "response" (JStr "") |}
    | Ok v => Raise (AttributeError ("'" ++ type_name v
                                     ++ "' object has no attribute 'get'"))
    end.
Proof.
  intros K P. destruct (analyzer_on_text cfg o lead w text rest K P) as (doc & E & A).
  exists doc. split; [exact E|]. rewrite A. reflexivity.
Qed.

(** The intent of the analysis: when the text between the fences
    parses as a JSON object the Analyzer succeeds; its intent is
    "unknown" if the object has no intent, and the value the object
    gives otherwise, kept as it is also when it is not one of the
    enumerated intents. *)
Theorem intent_is_default_or_as_given cfg o lead w text rest doc items :
  PyStr.truthy (ANTHROPIC_API_KEY cfg) = true ->
  messages_create o (build_prompt lead) = Ok (TextBlock text :: rest) ->
  fst (extract_json text w) = Ok doc ->
  json_loads doc = Ok (JDict items) ->
  exists ai_result w1,
    process_lead_with_ai json_loads cfg o lead w = (Ok ai_result, w1) /\
    an_intent_classification ai_result =
    match dict_lookup items "intent" with
    | Some v => v
    | None => JStr "unknown"
    end.
Proof.
  intros K P X L.
  destruct (analyzer_on_text cfg o lead w text rest K P) as (doc' & E & A).
  rewrite E in X. cbn [fst] in X. injection X as ->.
  rewrite L in A. rewrite A. eexists. eexists. split; reflexivity.
Qed.

End Analyzer.

(** ** The pipeline *)

Section Pipeline.

Variable json_loads : string -> result json.
Variable affinity_coerce : Sqlite.affinity -> Sqlite.value -> Sqlite.value.

(** C1. When the Lead Analyzer fails, whatever the cause (no API key,
    an error or a timeout of the provider, an answer that is not JSON),
    the handler answers with the HTTP 500 error envelope that carries
    the text of the failure, and the table holds exactly the rows it
    held before: no lead is recorded. *)
Theorem analyzer_failure_is_fatal cfg o lead w e w1 :
  process_lead_with_ai json_loads cfg o lead w = (Raise e, w1) ->
  exists w',
    submit_lead json_loads affinity_coerce cfg o lead w
    = (Raise (HTTPException 500 (str_exn e)), w') /\
    leads w' = leads w /\ sqlite_sequence w' = sqlite_sequence w.
Proof.
  intro A. rewrite submit_lead_steps, A.
  apply analyzer_effect in A. destruct A as ([T1 T2] & _).
  eexists. split; [reflexivity|]. split; cbn; assumption.
Qed.

(** The Responder answers [False] when the mail credentials are not
    configured... *)
Lemma responder_false_when_unconfigured cfg o to_email to_name co body w :
  PyStr.truthy (SMTP_USER cfg) && PyStr.truthy (SMTP_PASSWORD cfg) = false ->
  fst (send_email_response cfg o to_email to_name co body w) = Ok false.
Proof. intro U. unfold send_email_response. rewrite U. reflexivity. Qed.

(** ... and when the transport raises. *)
Lemma responder_false_on_transport_error cfg o to_email to_name co body w e :
  smtp_send o to_email ("Re: Your inquiry from " ++ co) body = Raise e ->
  fst (send_email_response cfg o to_email to_name co (JStr body) w) = Ok false.
Proof.
  intro T. unfold send_email_response.
  destruct (PyStr.truthy (SMTP_USER cfg) && PyStr.truthy (SMTP_PASSWORD cfg));
    [|reflexivity].
  cbn [negb]. unfold try_except, bind, mime_text, ret, external. rewrite T.
  reflexivity.
Qed.

(** C3. When the Analyzer succeeds and the INSERT succeeds, a Responder
    that reports failure (it answers [False]) does not stop the
    pipeline: the handler returns the success envelope with the key of
    the new row, and that row, the one row added to the table, has
    [email_sent] false. *)
Theorem responder_failure_is_not_fatal cfg o lead w ai_result w1 w2 new_id w3 :
  process_lead_with_ai json_loads cfg o lead w = (Ok ai_result, w1) ->
  send_email_response cfg o (email lead) (name lead) (company lead)
    (an_ai_response ai_result) w1 = (Ok false, w2) ->
  save_lead affinity_coerce o
    (mk_lead_data lead ai_result false (elapsed_ms (clock w) (clock w2)) (clock w2))
    w2 = (Ok new_id, w3) ->
  exists resp w' row,
    submit_lead json_loads affinity_coerce cfg o lead w = (Ok resp, w') /\
    success resp = true /\
    lead_id resp = Some new_id /\
    leads w' = (leads w ++ [row])%list /\
    id row = new_id /\
    email_sent row = false.
Proof.
  intros A R S. rewrite submit_lead_steps, A, R. cbv zeta. rewrite S.
  destruct (notifier_effect cfg o
              (mk_lead_data lead ai_result false (elapsed_ms (clock w) (clock w2))
                 (clock w2)) w3) as (w4 & N & [T1 T2]).
  rewrite N.
  apply analyzer_effect in A. destruct A as ([A1 _] & _).
  destruct (responder_effect cfg o (email lead) (name lead) (company lead)
              (an_ai_response ai_result) w1) as (sent & w2' & R' & [R1 _] & _).
  rewrite R in R'. pair_eq R'.
  apply save_lead_ok in S. destruct S as (row & L & _ & I & _ & M & _).
  eexists. exists w4, row. split; [reflexivity|].
  cbn [success lead_id]. repeat split; try assumption.
  rewrite T1, L, R1, A1. reflexivity.
Qed.

(** C6. The Notifier cannot change the outcome.  It never raises,
    whether no destination is configured, the child process succeeds or
    the call fails; and for every request the handler returns the same
    outcome (the same success envelope with its lead id, response time
    and message, or the same error) and leaves the same table, whatever
    the destination and whatever the notification call does or how long
    it takes. *)
Theorem notifier_never_changes_outcome cfg o lead w chat r t :
  (forall lead_data w0,
      fst (send_telegram_notification cfg o lead_data w0) = Ok tt) /\
  fst (submit_lead json_loads affinity_coerce
         (with_chat_id chat cfg) (with_subprocess r t o) lead w)
  = fst (submit_lead json_loads affinity_coerce cfg o lead w) /\
  leads (snd (submit_lead json_loads affinity_coerce
                (with_chat_id chat cfg) (with_subprocess r t o) lead w))
  = leads (snd (submit_lead json_loads affinity_coerce cfg o lead w)).
Proof.
  split.
  - intros lead_data w0.
    destruct (notifier_effect cfg o lead_data w0) as (w' & N & _).
    rewrite N. reflexivity.
  - assert (G : same_but_store_and_notifier_time o (with_subprocess r t o))
      by (repeat split; reflexivity).
    destruct (submit_lead_insensitive json_loads affinity_coerce cfg chat o
                (with_subprocess r t o) lead w G) as (F & T1 & _).
    split; assumption.
Qed.


(** C10. In an accepted request the response time written in the new
    row is the very value returned in the success envelope, and the
    envelope carries the key of that row. *)
Theorem stored_time_is_returned_time cfg o lead w resp w' :
  submit_lead json_loads affinity_coerce cfg o lead w = (Ok resp, w') ->
  exists row elapsed,
    leads w' = (leads w ++ [row])%list /\
    lead_id resp = Some (id row) /\
    response_time_ms resp = Some elapsed /\
    row_response_time_ms row = Some elapsed.
Proof.
  intro H.
  destruct (submit_lead_ok_inv _ _ _ _ _ _ _ _ H)
    as (ai & w1 & sent & w2 & i & w3 & A & R & S & N & E).
  apply analyzer_effect in A. destruct A as ([A1 _] & _).
  destruct (responder_effect cfg o (email lead) (name lead) (company lead)
              (an_ai_response ai) w1) as (sent' & w2' & R' & [R1 _] & _).
  rewrite R in R'. pair_eq R'.
  apply save_lead_ok in S. destruct S as (row & L & _ & I & _ & _ & M & _).
  destruct (notifier_effect cfg o
              (mk_lead_data lead ai sent' (elapsed_ms (clock w) (clock w2')) (clock w2'))
              w3) as (w4 & N' & [T1 _]).
  rewrite N in N'. pair_eq N'.
  exists row, (elapsed_ms (clock w) (clock w2')).
  cbn [lead_id response_time_ms]. repeat split; try congruence.
  exact M.
Qed.

End Pipeline.

(** ** The keys of the table *)

Lemma max_rowid_from (rows : list Row) :
  forall m, m <= fold_left (fun m r => Z.max m (id r)) rows m /\
            Forall (fun r => id r <= fold_left (fun m r => Z.max m (id r)) rows m) rows.
Proof.
  induction rows as [|r rows IH]; intro m; cbn [fold_left].
  - split; [lia | constructor].
  - destruct (IH (Z.max m (id r))) as [A B]. split; [lia|].
    constructor; [lia | exact B].
Qed.

Lemma max_rowid_bounds (rows : list Row) : Forall (fun r => id r <= max_rowid rows) rows.
Proof. apply max_rowid_from. Qed.

Lemma max_rowid_app (rows : list Row) (r : Row) :
  max_rowid (rows ++ [r]) = Z.max (max_rowid rows) (id r).
Proof. unfold max_rowid. rewrite fold_left_app. reflexivity. Qed.

Lemma same_table_largest_key (w w' : World) :
  same_table w w' -> largest_key w' = largest_key w.
Proof. intros [A B]. unfold largest_key. rewrite A, B. reflexivity. Qed.

Section Keys.

Variable json_loads : string -> result json.
Variable affinity_coerce : Sqlite.affinity -> Sqlite.value -> Sqlite.value.

(** One request either appends a row under a key above every key so
    far and returns that key, or leaves the table as it was. *)
Lemma submit_lead_key cfg o lead w r w1 :
  submit_lead json_loads affinity_coerce cfg o lead w = (r, w1) ->
  match r with
  | Ok resp =>
      exists i, lead_id resp = Some i /\ largest_key w < i /\ largest_key w1 = i /\
                map id (leads w1) = (map id (leads w) ++ [i])%list
  | Raise _ => largest_key w1 = largest_key w /\ leads w1 = leads w
  end.
Proof.
  intro H. destruct r as [resp|e].
  - destruct (submit_lead_ok_inv _ _ _ _ _ _ _ _ H)
      as (ai & wa & sent & wb & i & wc & A & R & S & N & E).
    apply analyzer_effect in A. destruct A as (TA & _).
    destruct (responder_effect cfg o (email lead) (name lead) (company lead)
                (an_ai_response ai) wa) as (sent' & wb' & R' & TR & _).
    rewrite R in R'. injection R' as <- <-.
    apply save_lead_ok in S. destruct S as (row & L & Q & I & G & _).
    destruct (notifier_effect cfg o
                (mk_lead_data lead ai sent (elapsed_ms (clock w) (clock wb)) (clock wb))
                wc) as (w4 & N' & TN).
    rewrite N in N'. injection N' as <-.
    pose proof (same_table_trans _ _ _ TA TR) as T.
    rewrite (same_table_largest_key _ _ T) in G.
    exists i. rewrite E. cbn [lead_id]. split; [reflexivity|]. split; [exact G|].
    destruct T as [T1 T2], TN as [N1 N2]. split.
    + unfold largest_key. rewrite N1, N2, L, Q, max_rowid_app, I.
      unfold largest_key in G. rewrite <- T1 in G. lia.
    + rewrite N1, L, T1, map_app, <- I. reflexivity.
  - apply submit_lead_raise_inv in H. destruct H as (T & _).
    split; [apply same_table_largest_key; exact T | apply T].
Qed.

Lemma serve_keys cfg requests :
  forall w,
    StronglySorted Z.lt (accepted_ids (fst (serve json_loads affinity_coerce cfg requests w))) /\
    Forall (fun i => largest_key w < i)
           (accepted_ids (fst (serve json_loads affinity_coerce cfg requests w))) /\
    map id (leads (snd (serve json_loads affinity_coerce cfg requests w)))
    = (map id (leads w)
       ++ accepted_ids (fst (serve json_loads affinity_coerce cfg requests w)))%list /\
    Forall (fun r => match r with
                     | Ok resp => lead_id resp <> None
                     | Raise _ => True
                     end)
           (fst (serve json_loads affinity_coerce cfg requests w)).
Proof.
  induction requests as [|[o lead] rest IH]; intro w; cbn [serve].
  - cbn. rewrite app_nil_r. repeat split; constructor.
  - destruct (submit_lead json_loads affinity_coerce cfg o lead w) as [r w1] eqn:H.
    specialize (IH w1).
    destruct (serve json_loads affinity_coerce cfg rest w1) as [rs w2].
    cbn [fst snd] in *. destruct IH as (S & F & M & K).
    apply submit_lead_key in H. destruct r as [resp|e].
    + destruct H as (i & I & G & E & L).
      unfold accepted_ids. cbn [flat_map]. fold (accepted_ids rs).
      destruct resp as [ok msg lid rt]. cbn [lead_id] in I. subst lid.
      cbn [app]. rewrite E in F. repeat split.
      * constructor; assumption.
      * constructor; [exact G|].
        eapply Forall_impl; [|exact F]. cbn. intros; lia.
      * rewrite M, L, <- app_assoc. reflexivity.
      * constructor; [discriminate | exact K].
    + destruct H as (E & L).
      unfold accepted_ids. cbn [flat_map app]. fold (accepted_ids rs).
      rewrite E in F. rewrite L in M. repeat split; try assumption.
      constructor; [exact I | exact K].
Qed.

(** C2. Every INSERT gives the new row a key above every key of the
    table; so in every run of requests against one table the lead ids
    of the accepted requests, in the order of the requests, strictly
    increase (each is greater than, hence different from, all earlier
    ones), each is greater than the key of every row the table held
    before the run, every accepted outcome carries a lead id, and the
    rows added by the run carry exactly these ids. *)
Theorem lead_ids_strictly_increase cfg requests w :
  let outcomes := fst (serve json_loads affinity_coerce cfg requests w) in
  let w' := snd (serve json_loads affinity_coerce cfg requests w) in
  StronglySorted Z.lt (accepted_ids outcomes) /\
  Forall (fun i => Forall (fun r => id r < i) (leads w)) (accepted_ids outcomes) /\
  map id (leads w') = (map id (leads w) ++ accepted_ids outcomes)%list /\
  Forall (fun r => match r with
                   | Ok resp => lead_id resp <> None
                   | Raise _ => True
                   end) outcomes.
Proof.
  cbv zeta. destruct (serve_keys cfg requests w) as (S & F & M & K).
  repeat split; try assumption.
  eapply Forall_impl; [|exact F]. cbn. intros i G.
  eapply Forall_impl; [|apply max_rowid_bounds]. cbn. intros r B.
  unfold largest_key in G. lia.
Qed.

End Keys.

(** ** The statistics *)

Lemma sql_count_from (p : Row -> bool) (rows : list Row) :
  forall n, fold_left (fun n r => if p r then n + 1 else n) rows n
            = n + Z.of_nat (List.length (filter p rows)).
Proof.
  induction rows as [|r rows IH]; intro n; cbn [fold_left filter].
  - cbn. lia.
  - rewrite IH. destruct (p r); cbn [List.length]; lia.
Qed.

Lemma sql_count_filter (p : Row -> bool) (rows : list Row) :
  sql_count p rows = Z.of_nat (List.length (filter p rows)).
Proof. unfold sql_count. rewrite sql_count_from. lia. Qed.

Lemma filter_all (rows : list Row) : filter (fun _ => true) rows = rows.
Proof. induction rows as [|r rows IH]; cbn; [|rewrite IH]; reflexivity. Qed.

(** The counts and the exact rate: [get_stats] reports as
    [emails_sent] the number of rows whose [email_sent] is true and as
    [total_leads] the number of rows; the exact quotient kept in
    [email_success_rate] is 0 when the table is empty and otherwise
    equals 100 * emails_sent / total_leads. *)
Theorem email_success_rate_spec (w : World) :
  let s := get_stats w in
  total_leads s = Z.of_nat (List.length (leads w)) /\
  emails_sent s = Z.of_nat (List.length (filter email_sent (leads w))) /\
  (if total_leads s =? 0 then email_success_rate s = 0%Q
   else (email_success_rate s
         == 100 * inject_Z (emails_sent s) / inject_Z (total_leads s))%Q).
Proof.
  cbv zeta. unfold get_stats. cbn [total_leads emails_sent email_success_rate].
  rewrite !sql_count_filter, filter_all.
  split; [reflexivity|]. split; [reflexivity|].
  set (e := Z.of_nat (List.length (filter email_sent (leads w)))).
  set (t := Z.of_nat (List.length (leads w))).
  destruct (t =? 0) eqn:Z0.
  - apply Z.eqb_eq in Z0. rewrite Z0. reflexivity.
  - apply Z.eqb_neq in Z0.
    assert (P : (0 <? t) = true) by (apply Z.ltb_lt; unfold t in *; lia).
    rewrite P.
    assert (N : ~ (inject_Z t == 0)%Q).
    { unfold Qeq, inject_Z. cbn. lia. }
    field. exact N.
Qed.

(** *** ORDER BY created_at DESC LIMIT 10 *)

Lemma insert_desc_perm (r : Row) (l : list Row) :
  Permutation (insert_desc r l) (r :: l).
Proof.
  induction l as [|x l IH]; cbn [insert_desc]; [reflexivity|].
  destruct (created_at x <=? created_at r); [reflexivity|].
  rewrite IH. apply perm_swap.
Qed.

Lemma order_by_perm (rows : list Row) :
  Permutation (order_by_created_at_desc rows) rows.
Proof.
  induction rows as [|r rows IH]; cbn; [constructor|].
  rewrite insert_desc_perm. constructor. exact IH.
Qed.

Lemma insert_desc_sorted (r : Row) (l : list Row) :
  StronglySorted newer_first l -> StronglySorted newer_first (insert_desc r l).
Proof.
  induction l as [|x l IH]; intro S; cbn [insert_desc].
  - repeat constructor.
  - inversion S as [|? ? Sl Fx]; subst.
    destruct (created_at x <=? created_at r) eqn:C.
    + apply Z.leb_le in C. constructor; [exact S|].
      constructor; [exact C|].
      eapply Forall_impl; [|exact Fx]. unfold newer_first. intros; lia.
    + apply Z.leb_gt in C. constructor; [apply IH; exact Sl|].
      eapply Permutation_Forall; [symmetry; apply insert_desc_perm|].
      constructor; [unfold newer_first; lia | exact Fx].
Qed.

Lemma order_by_sorted (rows : list Row) :
  StronglySorted newer_first (order_by_created_at_desc rows).
Proof.
  induction rows as [|r rows IH]; cbn; [constructor|].
  apply insert_desc_sorted. exact IH.
Qed.

(** Rows of one second keep the order they have in the table. *)
Lemma insert_desc_second (t : Z) (r : Row) (l : list Row) :
  filter (fun x => created_at x =? t) (insert_desc r l)
  = filter (fun x => created_at x =? t) (r :: l).
Proof.
  induction l as [|x l IH]; cbn [insert_desc]; [reflexivity|].
  destruct (created_at x <=? created_at r) eqn:C; [reflexivity|].
  apply Z.leb_gt in C. cbn [filter] in *. rewrite IH.
  destruct (created_at r =? t) eqn:R; destruct (created_at x =? t) eqn:X;
    try reflexivity.
  apply Z.eqb_eq in R, X. lia.
Qed.

Lemma order_by_second (t : Z) (rows : list Row) :
  filter (fun x => created_at x =? t) (order_by_created_at_desc rows)
  = filter (fun x => created_at x =? t) rows.
Proof.
  induction rows as [|r rows IH]; [reflexivity|].
  cbn [order_by_created_at_desc fold_right].
  rewrite insert_desc_second. cbn [filter].
  fold (order_by_created_at_desc rows). rewrite IH. reflexivity.
Qed.

Lemma insert_desc_oldest (r : Row) (l : list Row) :
  Forall (fun x => created_at r < created_at x) l ->
  insert_desc r l = (l ++ [r])%list.
Proof.
  induction 1 as [|x l Hx _ IH]; cbn [insert_desc app]; [reflexivity|].
  destruct (created_at x <=? created_at r) eqn:C.
  - apply Z.leb_le in C. lia.
  - rewrite IH. reflexivity.
Qed.

(** When every row is younger than the rows before it, the order is
    the reverse of the order of insertion. *)
Lemma order_by_rev (rows : list Row) :
  StronglySorted (fun a b => created_at a < created_at b) rows ->
  order_by_created_at_desc rows = rev rows.
Proof.
  induction 1 as [|r rows _ IH F]; [reflexivity|].
  cbn [order_by_created_at_desc fold_right rev].
  fold (order_by_created_at_desc rows). rewrite IH.
  apply insert_desc_oldest. apply Forall_rev. exact F.
Qed.

Lemma firstn_strongly_sorted {A} (R : A -> A -> Prop) (n : nat) :
  forall l, StronglySorted R l -> StronglySorted R (firstn n l).
Proof.
  induction n as [|n IH]; intros l S; [constructor|].
  destruct l as [|a l]; [constructor|].
  inversion S; subst. cbn [firstn]. constructor; [apply IH; assumption|].
  rewrite <- (firstn_skipn n l) in H2. apply Forall_app in H2. apply H2.
Qed.

Lemma map_strongly_sorted {A B} (f : A -> B) (R : A -> A -> Prop)
      (R' : B -> B -> Prop) :
  (forall a b, R a b -> R' (f a) (f b)) ->
  forall l, StronglySorted R l -> StronglySorted R' (map f l).
Proof.
  intros HR. induction 1 as [|a l _ IH F]; cbn [map]; constructor; [exact IH|].
  apply Forall_map. eapply Forall_impl; [|exact F]. intros b. apply HR.
Qed.

(** What the query does give.  For every table, [recent_leads] has at
    most 10 entries (10 as soon as the table has 10 rows), each the name,
    company, score, response time and creation time of one row: they
    are the first rows of the table put in order of creation time,
    which SQLite keeps to the second, most recent first.  When the
    creation times strictly increase along the insertions (as with 15
    rows inserted in 15 different seconds), it is exactly the last 10
    rows in reverse order of insertion. *)
Theorem recent_leads_spec (w : World) :
  let recent := recent_leads (get_stats w) in
  (List.length recent <= 10)%nat /\
  List.length recent = Nat.min 10 (List.length (leads w)) /\
  StronglySorted (fun a b => rl_timestamp b <= rl_timestamp a) recent /\
  (exists rows,
      Permutation rows (leads w) /\
      StronglySorted newer_first rows /\
      recent = map recent_of_row (firstn 10 rows)) /\
  (StronglySorted (fun a b => created_at a < created_at b) (leads w) ->
   recent = map recent_of_row (firstn 10 (rev (leads w)))).
Proof.
  cbv zeta. unfold get_stats. cbn [recent_leads]. repeat split.
  - rewrite length_map. apply firstn_le_length.
  - rewrite length_map, length_firstn.
    rewrite (Permutation_length (order_by_perm (leads w))). reflexivity.
  - apply (map_strongly_sorted recent_of_row newer_first); [auto|].
    apply firstn_strongly_sorted. apply order_by_sorted.
  - exists (order_by_created_at_desc (leads w)).
    split; [apply order_by_perm|]. split; [apply order_by_sorted | reflexivity].
  - intro S. rewrite (order_by_rev _ S). reflexivity.
Qed.

(** ** The theorems at work on the sample requests *)

Lemma analyzer_failure_is_fatal_witness :
  process_lead_with_ai Sample.loads Sample.cfg_full
    (Sample.answering Sample.not_json 1500000) Sample.ana (initial_world Sample.t0)
  = (Raise (JSONDecodeError "Expecting value: line 1 column 1 (char 0)"),
     tick 1500000 (initial_world Sample.t0))
  /\ exists w',
      submit_lead Sample.loads Sample.coerce Sample.cfg_full
        (Sample.answering Sample.not_json 1500000) Sample.ana
        (initial_world Sample.t0)
      = (Raise (HTTPException 500 "Expecting value: line 1 column 1 (char 0)"), w')
      /\ leads w' = [] /\ sqlite_sequence w' = 0.
Proof.
  assert (H : process_lead_with_ai Sample.loads Sample.cfg_full
                (Sample.answering Sample.not_json 1500000) Sample.ana
                (initial_world Sample.t0)
              = (Raise (JSONDecodeError "Expecting value: line 1 column 1 (char 0)"),
                 tick 1500000 (initial_world Sample.t0)))
    by (vm_compute; reflexivity).
  split; [exact H|].
  exact (analyzer_failure_is_fatal Sample.loads Sample.coerce _ _ _ _ _ _ H).
Defined.

Lemma responder_failure_is_not_fatal_witness :
  exists resp w' row,
    submit_lead Sample.loads Sample.coerce Sample.cfg_no_smtp Sample.slow Sample.ana
      (initial_world Sample.t0) = (Ok resp, w') /\
    success resp = true /\
    lead_id resp = Some 1 /\
    leads w' = [row] /\
    id row = 1 /\
    email_sent row = false.
Proof.
  eapply (responder_failure_is_not_fatal Sample.loads Sample.coerce
            Sample.cfg_no_smtp Sample.slow Sample.ana (initial_world Sample.t0)).
  - vm_compute. reflexivity.
  - vm_compute. reflexivity.
  - vm_compute. reflexivity.
Defined.

Lemma intent_is_default_or_as_given_witness :
  exists ai_result w1,
    process_lead_with_ai Sample.loads Sample.cfg_full
      (Sample.answering (Sample.fenced Sample.doc_empty) 1500000) Sample.ana
      (initial_world Sample.t0) = (Ok ai_result, w1) /\
    an_intent_classification ai_result = JStr "unknown".
Proof.
  apply (intent_is_default_or_as_given Sample.loads Sample.cfg_full
           (Sample.answering (Sample.fenced Sample.doc_empty) 1500000) Sample.ana
           (initial_world Sample.t0) (Sample.fenced Sample.doc_empty) []
           Sample.doc_empty []); vm_compute; reflexivity.
Defined.

(** C4, against the claim as it was stated: an intent outside the
    enumeration is not replaced by "unknown". *)
Lemma bogus_intent_is_kept :
  exists ai_result w1,
    process_lead_with_ai Sample.loads Sample.cfg_full
      (Sample.answering (Sample.fenced Sample.doc_bogus) 1500000) Sample.ana
      (initial_world Sample.t0) = (Ok ai_result, w1) /\
    ~ In "bogus_value" intent_enumeration /\
    an_intent_classification ai_result = JStr "bogus_value" /\
    an_intent_classification ai_result <> JStr "unknown".
Proof.
  eexists. eexists. split; [vm_compute; reflexivity|].
  cbn [an_intent_classification]. split; [|split; [reflexivity | discriminate]].
  unfold intent_enumeration. cbn [In]. intuition discriminate.
Qed.

Lemma analyzer_outcome_witness :
  exists doc,
    (forall w0, extract_json (Sample.fenced Sample.doc_demo) w0 = (Ok doc, w0)) /\
    fst (process_lead_with_ai Sample.loads Sample.cfg_full Sample.ana_oracle
           Sample.ana (initial_world Sample.t0)) =
    match Sample.loads doc with
    | Raise e => Raise e
    | Ok (JDict items) =>
        Ok {| an_intent_classification := dict_get items "intent" (JStr "unknown");
              an_lead_score := dict_get items "score" (JInt 5);
              an_ai_response := dict_get items "response" (JStr "") |}
    | Ok v => Raise (AttributeError ("'" ++ type_name v
                                     ++ "' object has no attribute 'get'"))
    end.
Proof.
  apply (analyzer_outcome Sample.loads Sample.cfg_full Sample.ana_oracle Sample.ana
           (initial_world Sample.t0) (Sample.fenced Sample.doc_demo) []);
    reflexivity.
Defined.

(** C5, against the claim as it was stated: answers with an intent
    outside the enumeration and a score of 11, with fields of the wrong
    types, and with no field at all each give a successful analysis. *)
Lemma malformed_output_is_accepted :
  ~ In "bogus_value" intent_enumeration /\ ~ (1 <= 11 <= 10) /\
  fst (process_lead_with_ai Sample.loads Sample.cfg_full
         (Sample.answering Sample.doc_bogus 1500000) Sample.ana
         (initial_world Sample.t0))
  = Ok {| an_intent_classification := JStr "bogus_value";
          an_lead_score := JInt 11;
          an_ai_response := JStr "" |} /\
  fst (process_lead_with_ai Sample.loads Sample.cfg_full
         (Sample.answering Sample.doc_wrong_types 1500000) Sample.ana
         (initial_world Sample.t0))
  = Ok {| an_intent_classification := JInt 7;
          an_lead_score := JStr "high";
          an_ai_response := JNull |} /\
  fst (process_lead_with_ai Sample.loads Sample.cfg_full
         (Sample.answering Sample.doc_empty 1500000) Sample.ana
         (initial_world Sample.t0))
  = Ok {| an_intent_classification := JStr "unknown";
          an_lead_score := JInt 5;
          an_ai_response := JStr "" |}.
Proof.
  split; [unfold intent_enumeration; cbn [In]; intuition discriminate|].
  split; [lia|].
  repeat split; vm_compute; reflexivity.
Qed.

Lemma recent_leads_spec_witness :
  StronglySorted (fun a b => created_at a < created_at b)
                 (leads (Sample.after_fifteen Sample.slow)) /\
  recent_leads (get_stats (Sample.after_fifteen Sample.slow))
  = map recent_of_row (firstn 10 (rev (leads (Sample.after_fifteen Sample.slow)))).
Proof.
  assert (S : StronglySorted (fun a b => created_at a < created_at b)
                             (leads (Sample.after_fifteen Sample.slow)))
    by (vm_compute; repeat constructor).
  split; [exact S|].
  exact (proj2 (proj2 (proj2 (proj2
           (recent_leads_spec (Sample.after_fifteen Sample.slow))))) S).
Defined.

Example fifteen_slow_leads :
  map rl_name (recent_leads (get_stats (Sample.after_fifteen Sample.slow)))
  = ["L15"; "L14"; "L13"; "L12"; "L11"; "L10"; "L09"; "L08"; "L07"; "L06"].
Proof. vm_compute. reflexivity. Qed.

(** C8, the code at the failing input: fifteen leads accepted within
    one second all carry the same creation time, the query has no
    second key to tell them apart, and the ten reported are the first
    ten in the order of insertion, not the last ten in reverse that the
    comment of the query ("Recent leads (last 10)") announces. *)
Lemma fifteen_quick_leads_are_the_first_ten :
  List.length (leads (Sample.after_fifteen Sample.quick)) = 15%nat /\
  map rl_name (recent_leads (get_stats (Sample.after_fifteen Sample.quick)))
  = ["L01"; "L02"; "L03"; "L04"; "L05"; "L06"; "L07"; "L08"; "L09"; "L10"] /\
  recent_leads (get_stats (Sample.after_fifteen Sample.quick))
  <> map recent_of_row (firstn 10 (rev (leads (Sample.after_fifteen Sample.quick)))).
Proof.
  split; [vm_compute; reflexivity|]. split; [vm_compute; reflexivity|].
  intro H. apply (f_equal (map rl_name)) in H. vm_compute in H. discriminate H.
Qed.


Lemma stored_time_is_returned_time_witness :
  exists row elapsed,
    leads (snd (submit_lead Sample.loads Sample.coerce Sample.cfg_full
                  Sample.ana_oracle Sample.ana (initial_world Sample.t0)))
    = [row] /\
    Some 1 = Some (id row) /\
    Some 1700 = Some elapsed /\
    row_response_time_ms row = Some elapsed.
Proof.
  assert (H : submit_lead Sample.loads Sample.coerce Sample.cfg_full Sample.ana_oracle
                Sample.ana (initial_world Sample.t0)
              = (Ok Sample.ana_accepted,
                 snd (submit_lead Sample.loads Sample.coerce Sample.cfg_full
                        Sample.ana_oracle Sample.ana (initial_world Sample.t0))))
    by (vm_compute; reflexivity).
  exact (stored_time_is_returned_time Sample.loads Sample.coerce _ _ _ _ _ _ H).
Defined.

(** ** Further properties of the handler *)

Section HandlerMore.

Variable json_loads : string -> result json.
Variable affinity_coerce : Sqlite.affinity -> Sqlite.value -> Sqlite.value.

(** The row a successful INSERT writes, and the key it gets. *)
Lemma save_lead_row o lead_data w i w' :
  save_lead affinity_coerce o lead_data w = (Ok i, w') ->
  exists score intent response,
    Sqlite.bind_param 7 (ld_lead_score lead_data) = Ok score /\
    Sqlite.bind_param 8 (ld_intent_classification lead_data) = Ok intent /\
    Sqlite.bind_param 11 (ld_ai_response lead_data) = Ok response /\
    i = largest_key w + 1 /\
    w' = insert_row
           {| id := i;
              timestamp := ld_timestamp lead_data;
              row_name := ld_name lead_data;
              row_email := ld_email lead_data;
              row_company := ld_company lead_data;
              row_message := ld_message lead_data;
              row_phone := ld_phone lead_data;
              lead_score := store_as affinity_coerce Sqlite.INTEGER score;
              intent_classification := store_as affinity_coerce Sqlite.TEXT intent;
              row_response_time_ms := Some (ld_response_time_ms lead_data);
              email_sent := ld_email_sent lead_data;
              ai_response := store_as affinity_coerce Sqlite.TEXT response;
              created_at := clock w / 1000000 |}
           (tick (t_sqlite o) w).
Proof.
  unfold save_lead, next_rowid. intro H.
  destruct (sqlite_fault o); [discriminate H|].
  destruct (Sqlite.bind_param 7 (ld_lead_score lead_data)) as [score|];
    destruct (Sqlite.bind_param 8 (ld_intent_classification lead_data)) as [intent|];
    destruct (Sqlite.bind_param 9 (JInt (ld_response_time_ms lead_data)));
    destruct (Sqlite.bind_param 11 (ld_ai_response lead_data)) as [response|];
    try discriminate H.
  destruct (largest_key w <? 2 ^ 63 - 1); [|discriminate H].
  injection H as <- <-. exists score, intent, response. repeat split; reflexivity.
Qed.

(** A value the sqlite3 module cannot bind makes the INSERT raise. *)
Lemma save_lead_unbindable o lead_data w :
  unbindable (ld_lead_score lead_data)
  || unbindable (ld_intent_classification lead_data)
  || unbindable (ld_ai_response lead_data) = true ->
  exists e, fst (save_lead affinity_coerce o lead_data w) = Raise e.
Proof.
  intro U. unfold save_lead.
  destruct (sqlite_fault o); [eexists; reflexivity|].
  destruct (ld_lead_score lead_data); cbn [unbindable orb] in U;
    try (cbn [Sqlite.bind_param]; eexists; reflexivity);
    destruct (Sqlite.bind_param 7 _) as [score|]; try (eexists; reflexivity);
    (destruct (ld_intent_classification lead_data); cbn [unbindable orb] in U;
     try (cbn [Sqlite.bind_param]; eexists; reflexivity);
     destruct (Sqlite.bind_param 8 _) as [intent|]; try (eexists; reflexivity);
     destruct (Sqlite.bind_param 9 _); try (eexists; reflexivity);
     destruct (ld_ai_response lead_data); cbn [unbindable] in U;
     try discriminate U; cbn [Sqlite.bind_param]; eexists; reflexivity).
Qed.

(** X17. Without an API key (unset, or set to the empty string) every
    request is answered 500 "ANTHROPIC_API_KEY not set" before any call
    leaves the process: no time passes, the table is untouched and the
    only trace is the line printed by the handler. *)
Theorem missing_api_key_rejects_before_any_call cfg o lead w :
  PyStr.truthy (ANTHROPIC_API_KEY cfg) = false ->
  exists w',
    submit_lead json_loads affinity_coerce cfg o lead w
    = (Raise (HTTPException 500 "ANTHROPIC_API_KEY not set"), w') /\
    clock w' = clock w /\
    leads w' = leads w /\
    stdout w' = (stdout w ++ ["Error processing lead: ANTHROPIC_API_KEY not set"])%list.
Proof.
  intro K. rewrite submit_lead_steps.
  rewrite (analyzer_raises_without_key json_loads cfg o lead w K).
  eexists. split; [reflexivity|]. repeat split; reflexivity.
Qed.


(** X3. When the analysis carries a JSON array or object as score,
    intent or response, the INSERT cannot bind it: the request is
    answered 500 and nothing is stored, although the analysis itself
    succeeded. *)
Theorem unbindable_analysis_is_rejected cfg o lead w ai_result w1 :
  process_lead_with_ai json_loads cfg o lead w = (Ok ai_result, w1) ->
  unbindable (an_lead_score ai_result)
  || unbindable (an_intent_classification ai_result)
  || unbindable (an_ai_response ai_result) = true ->
  exists detail w',
    submit_lead json_loads affinity_coerce cfg o lead w
    = (Raise (HTTPException 500 detail), w') /\
    leads w' = leads w /\ sqlite_sequence w' = sqlite_sequence w.
Proof.
  intros A U. rewrite submit_lead_steps, A.
  destruct (responder_effect cfg o (email lead) (name lead) (company lead)
              (an_ai_response ai_result) w1) as (sent & w2 & R & [R1 R2] & _).
  rewrite R. cbv zeta.
  set (lead_data := mk_lead_data lead ai_result sent
                      (elapsed_ms (clock w) (clock w2)) (clock w2)).
  destruct (save_lead_unbindable o lead_data w2 U) as [e E].
  destruct (save_lead affinity_coerce o lead_data w2) as [[i|x] w3] eqn:S;
    cbn [fst] in E; [discriminate E|].
  apply save_lead_raise in S. destruct S as [S1 S2].
  apply analyzer_effect in A. destruct A as ([A1 A2] & _).
  eexists. eexists. split; [reflexivity|]. cbn. split; congruence.
Qed.

(** X2. The handler has two outcomes only: the success envelope, with
    [success] true, a lead id, a response time and the message that
    quotes the lead's address and that time, or HTTPException with
    status 500.  No other exception leaves it. *)
Theorem submit_lead_outcomes cfg o lead w :
  match fst (submit_lead json_loads affinity_coerce cfg o lead w) with
  | Ok resp =>
      success resp = true /\
      (exists i, lead_id resp = Some i) /\
      (exists t, response_time_ms resp = Some t /\
                 reply_message resp
                 = "Thank you! We've responded to " ++ email lead
                   ++ " in " ++ PyStr.str_int t ++ "ms")
  | Raise e => exists detail, e = HTTPException 500 detail
  end.
Proof.
  destruct (submit_lead json_loads affinity_coerce cfg o lead w) as [[resp|e] w'] eqn:H;
    cbn [fst].
  - destruct (submit_lead_ok_inv _ _ _ _ _ _ _ _ H)
      as (ai & w1 & sent & w2 & i & w3 & _ & _ & _ & _ & E).
    rewrite E. cbn [success lead_id response_time_ms reply_message].
    split; [reflexivity|]. split; [eexists; reflexivity|].
    eexists. split; reflexivity.
  - destruct (submit_lead_raise_inv _ _ _ _ _ _ _ _ H) as (_ & cause & E). eauto.
Qed.

(** X4. What an accepted request stores is what came in: the new row
    carries the name, address, company, message and phone of the
    submission, the Responder's answer as [email_sent], and a textual
    intent, an integer score and a textual reply of the analysis
    unchanged (the column affinity leaves those as they are). *)
Theorem stored_row_is_the_submission cfg o lead w resp w' :
  submit_lead json_loads affinity_coerce cfg o lead w = (Ok resp, w') ->
  exists ai_result w1 sent w2 row,
    process_lead_with_ai json_loads cfg o lead w = (Ok ai_result, w1) /\
    send_email_response cfg o (email lead) (name lead) (company lead)
      (an_ai_response ai_result) w1 = (Ok sent, w2) /\
    leads w' = (leads w ++ [row])%list /\
    row_name row = name lead /\ row_email row = email lead /\
    row_company row = company lead /\ row_message row = message lead /\
    row_phone row = phone lead /\
    email_sent row = sent /\
    (forall s, an_intent_classification ai_result = JStr s ->
               intent_classification row = Sqlite.Text s) /\
    (forall n, an_lead_score ai_result = JInt n ->
               lead_score row = Sqlite.Integer n) /\
    (forall s, an_ai_response ai_result = JStr s ->
               ai_response row = Sqlite.Text s).
Proof.
  intro H.
  destruct (submit_lead_ok_inv _ _ _ _ _ _ _ _ H)
    as (ai & w1 & sent & w2 & i & w3 & A & R & S & N & E).
  exists ai, w1, sent, w2.
  pose proof (analyzer_effect _ _ _ _ _ _ _ A) as ([A1 _] & _).
  destruct (responder_effect cfg o (email lead) (name lead) (company lead)
              (an_ai_response ai) w1) as (sent' & w2' & R' & [R1 _] & _).
  rewrite R in R'. injection R' as <- <-.
  destruct (notifier_effect cfg o
              (mk_lead_data lead ai sent (elapsed_ms (clock w) (clock w2)) (clock w2))
              w3) as (w4 & N' & [T1 _]).
  rewrite N in N'. injection N' as <-.
  destruct (save_lead_row _ _ _ _ _ S) as (score & intent & response & B1 & B2 & B3 & _ & W).
  eexists. split; [exact A|]. split; [exact R|].
  split; [rewrite T1, W; cbn [insert_row leads tick]; rewrite R1, A1; reflexivity|].
  cbn [row_name row_email row_company row_message row_phone email_sent
       intent_classification lead_score ai_response mk_lead_data
       ld_name ld_email ld_company ld_message ld_phone ld_email_sent].
  repeat split; try reflexivity.
  - intros s I. cbn [mk_lead_data ld_intent_classification] in B2.
    rewrite I in B2. cbn in B2. injection B2 as <-. reflexivity.
  - intros n I. cbn [mk_lead_data ld_lead_score] in B1.
    rewrite I in B1. cbn [Sqlite.bind_param] in B1.
    destruct ((- 2 ^ 63 <=? n) && (n <? 2 ^ 63)); [|discriminate B1].
    injection B1 as <-. reflexivity.
  - intros s I. cbn [mk_lead_data ld_ai_response] in B3.
    rewrite I in B3. cbn in B3. injection B3 as <-. reflexivity.
Qed.

End HandlerMore.

(** ** Further properties of the Responder and of the response time *)

Section ResponderMore.

Variable json_loads : string -> result json.
Variable affinity_coerce : Sqlite.affinity -> Sqlite.value -> Sqlite.value.

(** X7. The Responder always returns a bool and never raises.  It
    answers [True] exactly when both mail credentials are set to
    non-empty strings, the reply is a text, and the transport accepted
    the message "Re: Your inquiry from <company>" for the lead's
    address; in every other case (a credential unset or empty, a reply
    that is not text, a transport error) it answers [False]. *)
Theorem responder_true_iff cfg o to_email to_name co body w :
  exists sent,
    fst (send_email_response cfg o to_email to_name co body w) = Ok sent /\
    (sent = true <->
     PyStr.truthy (SMTP_USER cfg) = true /\
     PyStr.truthy (SMTP_PASSWORD cfg) = true /\
     exists text,
       body = JStr text /\
       smtp_send o to_email ("Re: Your inquiry from " ++ co) text = Ok tt).
Proof.
  unfold send_email_response.
  destruct (PyStr.truthy (SMTP_USER cfg)); destruct (PyStr.truthy (SMTP_PASSWORD cfg));
    cbn [andb negb];
    try (exists false; split; [reflexivity|];
         split; [intro H; discriminate H | intros (A & B & _); discriminate]).
  unfold try_except, bind, mime_text.
  destruct body as [| | | |text| |];
    try (exists false; split; [reflexivity|];
         split; [intro H; discriminate H
                | intros (_ & _ & t & E & _); discriminate E]).
  unfold ret, external.
  destruct (smtp_send o to_email ("Re: Your inquiry from " ++ co) text) as [[]|e] eqn:T;
    cbn -[String.append].
  - exists true. split; [reflexivity|].
    split; [intros _|reflexivity]. split; [reflexivity|]. split; [reflexivity|].
    exists text. split; [reflexivity | exact T].
  - exists false. split; [reflexivity|].
    split; [intro H; discriminate H|].
    intros (_ & _ & t & E & S). injection E as <-. rewrite T in S. discriminate S.
Qed.

(** X8. An answer with no "response" member still goes out: the reply
    defaults to the empty text, and with the mail transport configured
    and accepting, the Responder sends that empty message and answers
    [True]. *)
Theorem missing_reply_is_mailed_empty cfg o lead w text rest doc items :
  PyStr.truthy (ANTHROPIC_API_KEY cfg) = true ->
  messages_create o (build_prompt lead) = Ok (TextBlock text :: rest) ->
  fst (extract_json text w) = Ok doc ->
  json_loads doc = Ok (JDict items) ->
  dict_lookup items "response" = None ->
  PyStr.truthy (SMTP_USER cfg) = true ->
  PyStr.truthy (SMTP_PASSWORD cfg) = true ->
  smtp_send o (email lead) ("Re: Your inquiry from " ++ company lead) "" = Ok tt ->
  exists ai_result w1 w2,
    process_lead_with_ai json_loads cfg o lead w = (Ok ai_result, w1) /\
    an_ai_response ai_result = JStr "" /\
    send_email_response cfg o (email lead) (name lead) (company lead)
      (an_ai_response ai_result) w1 = (Ok true, w2).
Proof.
  intros K P X L D U V T.
  destruct (analyzer_on_text json_loads cfg o lead w text rest K P) as (doc' & E & A).
  rewrite E in X. cbn [fst] in X. injection X as ->.
  rewrite L in A. rewrite A.
  eexists. eexists. eexists. split; [reflexivity|].
  cbn [an_ai_response]. unfold dict_get. rewrite D. split; [reflexivity|].
  unfold send_email_response. rewrite U, V. cbn [andb negb].
  unfold try_except, bind, mime_text, ret, external. rewrite T. reflexivity.
Qed.

(** X10. When the provider call and the mail transport take no
    negative time, the response time of an accepted request is not
    negative and never more than the time spent in these two calls.
    (On its binary64 clock the code can report one millisecond less
    than the whole milliseconds of that time, never one more.) *)
Theorem response_time_bounds cfg o lead w resp w' :
  submit_lead json_loads affinity_coerce cfg o lead w = (Ok resp, w') ->
  0 <= t_messages_create o ->
  0 <= t_smtp o ->
  exists t ai_result w1,
    process_lead_with_ai json_loads cfg o lead w = (Ok ai_result, w1) /\
    response_time_ms resp = Some t /\
    0 <= t /\
    1000 * t
    <= t_messages_create o
       + (if smtp_attempted cfg (an_ai_response ai_result) then t_smtp o else 0).
Proof.
  intros H P Q.
  destruct (submit_lead_ok_inv _ _ _ _ _ _ _ _ H)
    as (ai & w1 & sent & w2 & i & w3 & A & R & S & N & E).
  exists (elapsed_ms (clock w) (clock w2)), ai, w1.
  split; [exact A|]. split; [rewrite E; reflexivity|].
  pose proof (analyzer_effect _ _ _ _ _ _ _ A) as (_ & _ & C1).
  destruct (responder_effect cfg o (email lead) (name lead) (company lead)
              (an_ai_response ai) w1) as (sent' & w2' & R' & _ & C2).
  rewrite R in R'. injection R' as <- <-.
  destruct (PyStr.truthy (ANTHROPIC_API_KEY cfg)) eqn:K;
    [|rewrite (analyzer_raises_without_key json_loads cfg o lead w K) in A;
      discriminate A].
  unfold elapsed_ms.
  set (spent := t_messages_create o
                + (if smtp_attempted cfg (an_ai_response ai) then t_smtp o else 0)).
  assert (G : clock w2 - clock w = spent) by (unfold spent; lia).
  assert (G0 : 0 <= spent)
    by (unfold spent; destruct (smtp_attempted cfg (an_ai_response ai)); lia).
  rewrite G. rewrite Z.quot_div_nonneg by lia.
  pose proof (Z.div_mod spent 1000 ltac:(lia)) as DM.
  pose proof (Z.mod_pos_bound spent 1000 ltac:(lia)) as MB.
  pose proof (Z.div_pos spent 1000 G0 ltac:(lia)) as DP.
  lia.
Qed.

End ResponderMore.

Lemma missing_reply_is_mailed_empty_witness :
  exists ai_result w1 w2,
    process_lead_with_ai Sample.loads Sample.cfg_full
      (Sample.answering Sample.doc_empty 1500000) Sample.ana
      (initial_world Sample.t0) = (Ok ai_result, w1) /\
    an_ai_response ai_result = JStr "" /\
    send_email_response Sample.cfg_full (Sample.answering Sample.doc_empty 1500000)
      "ana@x.com" "Ana" "Acme" (an_ai_response ai_result) w1 = (Ok true, w2).
Proof.
  apply (missing_reply_is_mailed_empty Sample.loads Sample.cfg_full
           (Sample.answering Sample.doc_empty 1500000) Sample.ana
           (initial_world Sample.t0) Sample.doc_empty [] Sample.doc_empty []);
    reflexivity.
Defined.

Lemma response_time_bounds_witness :
  exists t ai_result w1,
    process_lead_with_ai Sample.loads Sample.cfg_full Sample.ana_oracle Sample.ana
      (initial_world Sample.t0) = (Ok ai_result, w1) /\
    Some 1700 = Some t /\
    0 <= t /\
    1000 * t
    <= 1500000 + (if smtp_attempted Sample.cfg_full (an_ai_response ai_result)
                  then 200000 else 0).
Proof.
  assert (H : submit_lead Sample.loads Sample.coerce Sample.cfg_full Sample.ana_oracle
                Sample.ana (initial_world Sample.t0)
              = (Ok Sample.ana_accepted,
                 snd (submit_lead Sample.loads Sample.coerce Sample.cfg_full
                        Sample.ana_oracle Sample.ana (initial_world Sample.t0))))
    by (vm_compute; reflexivity).
  apply (response_time_bounds Sample.loads Sample.coerce _ _ _ _ _ _ H);
    vm_compute; discriminate.
Defined.

(** ** Further properties of the table and of the statistics *)

Lemma strongly_sorted_snoc (l : list Z) (x : Z) :
  StronglySorted Z.lt l -> Forall (fun y => y < x) l ->
  StronglySorted Z.lt (l ++ [x]).
Proof.
  induction 1 as [|a l S IH F]; intro B; cbn [app].
  - repeat constructor.
  - inversion B; subst. constructor; [apply IH; assumption|].
    apply Forall_app. split; [exact F | repeat constructor; assumption].
Qed.

Lemma get_stats_same_leads (w w' : World) :
  leads w' = leads w -> get_stats w' = get_stats w.
Proof. intro L. unfold get_stats. rewrite L. reflexivity. Qed.

Lemma fold_insert_newest (r : Row) (l : list Row) :
  Forall (fun x => created_at x < created_at r) l ->
  forall acc, fold_right insert_desc (r :: acc) l
              = r :: fold_right insert_desc acc l.
Proof.
  induction 1 as [|x l Hx _ IH]; intro acc; cbn [fold_right]; [reflexivity|].
  rewrite IH. cbn [insert_desc].
  destruct (created_at r <=? created_at x) eqn:C; [|reflexivity].
  apply Z.leb_le in C. lia.
Qed.

(** A row younger than all the others comes first. *)
Lemma order_by_newest (l : list Row) (r : Row) :
  Forall (fun x => created_at x < created_at r) l ->
  order_by_created_at_desc (l ++ [r]) = r :: order_by_created_at_desc l.
Proof.
  intro F. unfold order_by_created_at_desc. rewrite fold_right_app.
  cbn [fold_right insert_desc]. apply fold_insert_newest. exact F.
Qed.

Section TableMore.

Variable json_loads : string -> result json.
Variable affinity_coerce : Sqlite.affinity -> Sqlite.value -> Sqlite.value.

(** One request either appends one row under the next key, which it
    returns, or leaves the table as it was. *)
Lemma submit_lead_next_key cfg o lead w r w1 :
  submit_lead json_loads affinity_coerce cfg o lead w = (r, w1) ->
  match r with
  | Ok resp =>
      exists row,
        leads w1 = (leads w ++ [row])%list /\
        id row = largest_key w + 1 /\
        sqlite_sequence w1 = largest_key w + 1 /\
        lead_id resp = Some (largest_key w + 1)
  | Raise _ => same_table w w1
  end.
Proof.
  intro H. destruct r as [resp|e].
  - destruct (submit_lead_ok_inv _ _ _ _ _ _ _ _ H)
      as (ai & wa & sent & wb & i & wc & A & R & S & N & E).
    apply analyzer_effect in A. destruct A as (TA & _).
    destruct (responder_effect cfg o (email lead) (name lead) (company lead)
                (an_ai_response ai) wa) as (sent' & wb' & R' & TR & _).
    rewrite R in R'. injection R' as <- <-.
    destruct (notifier_effect cfg o
                (mk_lead_data lead ai sent (elapsed_ms (clock w) (clock wb)) (clock wb))
                wc) as (w4 & N' & [N1 N2]).
    rewrite N in N'. injection N' as <-.
    pose proof (same_table_trans _ _ _ TA TR) as T.
    destruct (save_lead_row _ _ _ _ _ _ S) as (sc & it & rp & _ & _ & _ & I & W).
    rewrite (same_table_largest_key _ _ T) in I.
    destruct T as [T1 T2].
    eexists. rewrite N1, N2, W. cbn [insert_row leads sqlite_sequence tick id].
    rewrite T1, E. cbn [lead_id]. subst i. repeat split; reflexivity.
  - apply submit_lead_raise_inv in H. apply H.
Qed.

Lemma largest_key_snoc (w w1 : World) (row : Row) :
  leads w1 = (leads w ++ [row])%list ->
  id row = largest_key w + 1 ->
  sqlite_sequence w1 = largest_key w + 1 ->
  largest_key w1 = largest_key w + 1.
Proof.
  intros L I Q. unfold largest_key at 1. rewrite L, Q, max_rowid_app, I.
  unfold largest_key. lia.
Qed.

(** X15. Lead ids are handed out without gaps: in every run the
    accepted requests get, in order, the keys that follow the largest
    key the table has held.  A rejected request uses up no key. *)
Theorem lead_ids_are_consecutive cfg requests :
  forall w,
    accepted_ids (fst (serve json_loads affinity_coerce cfg requests w))
    = map (fun k => largest_key w + Z.of_nat k)
          (seq 1 (List.length
                    (accepted_ids
                       (fst (serve json_loads affinity_coerce cfg requests w))))).
Proof.
  induction requests as [|[o lead] rest IH]; intro w; cbn [serve]; [reflexivity|].
  destruct (submit_lead json_loads affinity_coerce cfg o lead w) as [r w1] eqn:H.
  specialize (IH w1).
  destruct (serve json_loads affinity_coerce cfg rest w1) as [rs w2].
  cbn [fst] in *. apply submit_lead_next_key in H. destruct r as [resp|e].
  - destruct H as (row & L & I & Q & E).
    pose proof (largest_key_snoc _ _ _ L I Q) as K.
    unfold accepted_ids. cbn [flat_map]. fold (accepted_ids rs).
    destruct resp as [ok msg lid rt]. cbn [lead_id] in E. subst lid.
    cbn [app List.length seq map]. change (Z.of_nat 1) with 1. f_equal.
    rewrite IH at 1.
    rewrite <- (seq_shift (List.length (accepted_ids rs)) 1), map_map.
    apply map_ext.
    intro k. rewrite K. lia.
  - unfold accepted_ids. cbn [flat_map app]. fold (accepted_ids rs).
    rewrite IH at 1. rewrite (same_table_largest_key _ _ H). reflexivity.
Qed.

(** X16. The handler keeps the keys of the table in order: if they
    strictly increase along the table and none is above the counter of
    the key, the same holds after any run of requests; in particular no
    two rows ever share a key. *)
Theorem serve_keeps_keys_ordered cfg requests :
  forall w,
    well_keyed w ->
    well_keyed (snd (serve json_loads affinity_coerce cfg requests w)) /\
    NoDup (map id (leads (snd (serve json_loads affinity_coerce cfg requests w)))).
Proof.
  assert (ND : forall w, well_keyed w -> NoDup (map id (leads w))).
  { intros w [S _]. apply StronglySorted_Sorted in S.
    revert S. generalize (map id (leads w)). intros l S.
    apply Sorted_StronglySorted in S; [|intros x y z; lia].
    induction S as [|a l _ IH F]; constructor; [|exact IH].
    intro I. rewrite Forall_forall in F. specialize (F a I). lia. }
  induction requests as [|[o lead] rest IH]; intros w W; cbn [serve].
  - cbn [snd]. split; [exact W | apply ND; exact W].
  - destruct (submit_lead json_loads affinity_coerce cfg o lead w) as [r w1] eqn:H.
    assert (W1 : well_keyed w1).
    { apply submit_lead_next_key in H. destruct W as [S B]. destruct r as [resp|e].
      - destruct H as (row & L & I & Q & _).
        assert (G : Forall (fun x => id x < id row) (leads w)).
        { eapply Forall_impl; [|apply max_rowid_bounds]. cbn. intros x X.
          rewrite I. unfold largest_key. lia. }
        split.
        + rewrite L, map_app. cbn [map]. apply strongly_sorted_snoc; [exact S|].
          apply Forall_map. exact G.
        + rewrite L, Q, <- I. apply Forall_app. split.
          * eapply Forall_impl; [|exact G]. cbn. intros; lia.
          * repeat constructor. lia.
      - destruct H as [L Q]. split; rewrite L; [exact S|]. rewrite Q. exact B. }
    specialize (IH w1 W1).
    destruct (serve json_loads affinity_coerce cfg rest w1) as [rs w2].
    exact IH.
Qed.

(** X6. The table is append-only: after any run of requests the rows
    that were there are still there, unchanged and in place, followed
    by one new row for each accepted request, in the order of the
    requests. *)
Theorem serve_only_appends cfg requests :
  forall w,
    exists added,
      leads (snd (serve json_loads affinity_coerce cfg requests w))
      = (leads w ++ added)%list /\
      map id added
      = accepted_ids (fst (serve json_loads affinity_coerce cfg requests w)).
Proof.
  induction requests as [|[o lead] rest IH]; intro w; cbn [serve].
  - exists []. cbn. rewrite app_nil_r. split; reflexivity.
  - destruct (submit_lead json_loads affinity_coerce cfg o lead w) as [r w1] eqn:H.
    destruct (IH w1) as (added & L & I).
    destruct (serve json_loads affinity_coerce cfg rest w1) as [rs w2].
    cbn [fst snd] in *. apply submit_lead_next_key in H. destruct r as [resp|e].
    + destruct H as (row & L1 & I1 & _ & E).
      exists (row :: added). rewrite L, L1, <- app_assoc. split; [reflexivity|].
      unfold accepted_ids. cbn [flat_map]. fold (accepted_ids rs).
      destruct resp as [ok msg lid rt]. cbn [lead_id] in E. subst lid.
      cbn [map app]. rewrite I, I1. reflexivity.
    + destruct H as [L1 _]. exists added. rewrite L, L1. split; [reflexivity|].
      unfold accepted_ids. cbn [flat_map app]. fold (accepted_ids rs). exact I.
Qed.

(** X5. The statistics follow the requests: an accepted request adds
    one to [total_leads] and adds one to [emails_sent] exactly when the
    Responder answered [True]; a rejected request changes nothing that
    [get_stats] reports. *)
Theorem stats_after_request cfg o lead w :
  match submit_lead json_loads affinity_coerce cfg o lead w with
  | (Ok _, w') =>
      total_leads (get_stats w') = total_leads (get_stats w) + 1 /\
      exists ai_result w1 sent w2,
        process_lead_with_ai json_loads cfg o lead w = (Ok ai_result, w1) /\
        send_email_response cfg o (email lead) (name lead) (company lead)
          (an_ai_response ai_result) w1 = (Ok sent, w2) /\
        emails_sent (get_stats w')
        = emails_sent (get_stats w) + (if sent then 1 else 0)
  | (Raise _, w') => get_stats w' = get_stats w
  end.
Proof.
  destruct (submit_lead json_loads affinity_coerce cfg o lead w) as [[resp|e] w'] eqn:H.
  - destruct (submit_lead_ok_inv _ _ _ _ _ _ _ _ H)
      as (ai & w1 & sent & w2 & i & w3 & A & R & S & N & E).
    pose proof (analyzer_effect _ _ _ _ _ _ _ A) as ([A1 _] & _).
    destruct (responder_effect cfg o (email lead) (name lead) (company lead)
                (an_ai_response ai) w1) as (sent' & w2' & R' & [R1 _] & _).
    rewrite R in R'. injection R' as <- <-.
    destruct (notifier_effect cfg o
                (mk_lead_data lead ai sent (elapsed_ms (clock w) (clock w2)) (clock w2))
                w3) as (w4 & N' & [T1 _]).
    rewrite N in N'. injection N' as <-.
    destruct (save_lead_row _ _ _ _ _ _ S) as (sc & it & rp & _ & _ & _ & _ & W).
    assert (L : exists row, leads w' = (leads w ++ [row])%list /\ email_sent row = sent).
    { eexists. rewrite T1, W. cbn [insert_row leads tick]. rewrite R1, A1.
      split; reflexivity. }
    destruct L as (row & L & M).
    unfold get_stats. cbn [total_leads emails_sent].
    rewrite !sql_count_filter, L, !filter_app, !length_app. cbn [filter].
    rewrite M. split; [cbn; lia|].
    exists ai, w1, sent, w2. split; [exact A|]. split; [exact R|].
    destruct sent; cbn; lia.
  - apply submit_lead_raise_inv in H. destruct H as ([L _] & _).
    apply get_stats_same_leads. exact L.
Qed.

(** X13. A lead accepted in a later second than every row of the
    table heads [recent_leads]: when all rows were created before the
    second in which the request arrives and the provider and the mail
    transport take no negative time, the first entry reported after the
    request is the new lead, with its name, its company and the
    response time of the envelope. *)
Theorem accepted_lead_heads_recent_leads cfg o lead w resp w' :
  submit_lead json_loads affinity_coerce cfg o lead w = (Ok resp, w') ->
  Forall (fun r => created_at r < clock w / 1000000) (leads w) ->
  0 <= t_messages_create o ->
  0 <= t_smtp o ->
  exists entry others,
    recent_leads (get_stats w') = entry :: others /\
    rl_name entry = name lead /\
    rl_company entry = company lead /\
    rl_response_time_ms entry = response_time_ms resp.
Proof.
  intros H F P Q.
  destruct (submit_lead_ok_inv _ _ _ _ _ _ _ _ H)
    as (ai & w1 & sent & w2 & i & w3 & A & R & S & N & E).
  pose proof (analyzer_effect _ _ _ _ _ _ _ A) as ([A1 _] & _ & C1).
  destruct (responder_effect cfg o (email lead) (name lead) (company lead)
              (an_ai_response ai) w1) as (sent' & w2' & R' & [R1 _] & C2).
  rewrite R in R'. injection R' as <- <-.
  destruct (notifier_effect cfg o
              (mk_lead_data lead ai sent (elapsed_ms (clock w) (clock w2)) (clock w2))
              w3) as (w4 & N' & [T1 _]).
  rewrite N in N'. injection N' as <-.
  destruct (save_lead_row _ _ _ _ _ _ S) as (sc & it & rp & _ & _ & _ & _ & W).
  assert (G : clock w <= clock w2).
  { destruct (PyStr.truthy (ANTHROPIC_API_KEY cfg));
      destruct (smtp_attempted cfg (an_ai_response ai)); lia. }
  unfold get_stats. cbn [recent_leads].
  rewrite T1, W. cbn [insert_row leads tick]. rewrite R1, A1.
  rewrite order_by_newest.
  - cbn [firstn map]. eexists. eexists. split; [reflexivity|].
    rewrite E. cbn. repeat split; reflexivity.
  - cbn [created_at]. eapply Forall_impl; [|exact F]. cbn. intros r B.
    pose proof (Z.div_le_mono (clock w) (clock w2) 1000000 ltac:(lia) G). lia.
Qed.

End TableMore.

(** ** Further properties of the statistics *)

Lemma int_of_Q_div (s n : Z) :
  0 < n -> int_of_Q (inject_Z s / inject_Z n) = Z.quot s n.
Proof.
  intro P. destruct n as [|p|p]; try lia.
  unfold int_of_Q, Qdiv, Qmult, Qinv, inject_Z. cbn.
  rewrite Z.mul_1_r. reflexivity.
Qed.

Lemma sum_from_bounds (lo hi : Z) (l : list Z) :
  Forall (fun t => lo <= t <= hi) l ->
  forall a, a + Z.of_nat (List.length l) * lo <= fold_left Z.add l a
            <= a + Z.of_nat (List.length l) * hi.
Proof.
  induction 1 as [|t l Ht _ IH]; intro a; cbn [fold_left List.length].
  - lia.
  - specialize (IH (a + t)). lia.
Qed.

(** X9. [avg_response_time_ms] lies between the smallest and the
    largest response time of the table: when the table has a row with a
    response time, all its response times are between [lo] and [hi],
    and they are small enough for their sum to be a double without
    rounding (their number times the larger of |lo| and |hi| is at most
    2^53), the average reported is between [lo] and [hi] too. *)
Theorem avg_response_time_within_bounds (w : World) (lo hi : Z) :
  known_times (leads w) <> [] ->
  Forall (fun t => lo <= t <= hi) (known_times (leads w)) ->
  Z.of_nat (List.length (known_times (leads w))) * Z.max (Z.abs lo) (Z.abs hi)
  <= 2 ^ 53 ->
  lo <= avg_response_time_ms (get_stats w) <= hi.
Proof.
  intros N F _. unfold get_stats. cbn [avg_response_time_ms].
  unfold sql_avg_response_time. fold (known_times (leads w)).
  destruct (known_times (leads w)) as [|t l] eqn:K; [contradiction|].
  set (n := Z.of_nat (List.length (t :: l))).
  assert (P : 0 < n) by (unfold n; cbn [List.length]; lia).
  rewrite int_of_Q_div by exact P.
  pose proof (sum_from_bounds lo hi (t :: l) F 0) as B. fold n in B.
  split.
  - rewrite <- (Z.quot_mul lo n) by lia.
    apply Z.quot_le_mono; lia.
  - rewrite <- (Z.quot_mul hi n) by lia.
    apply Z.quot_le_mono; lia.
Qed.

(** X14. [email_success_rate] is a percentage: for every table it is
    at least 0 and at most 100. *)
Theorem email_success_rate_is_a_percentage (w : World) :
  (0 <= email_success_rate (get_stats w) <= 100)%Q.
Proof.
  unfold get_stats. cbn [email_success_rate].
  rewrite !sql_count_filter, filter_all.
  pose proof (filter_length_le email_sent (leads w)) as B.
  set (e := List.length (filter email_sent (leads w))) in *.
  set (t := List.length (leads w)) in *.
  destruct t as [|t]; [cbn; split; discriminate|].
  replace (0 <? Z.of_nat (S t)) with true by (symmetry; apply Z.ltb_lt; lia).
  assert (E : 0 <= Z.of_nat e <= Z.of_nat (S t)) by lia.
  revert E. generalize (Z.of_nat e).
  change (Z.of_nat (S t)) with (Z.pos (Pos.of_succ_nat t)).
  generalize (Pos.of_succ_nat t). intros p z E.
  unfold Qle, Qdiv, Qmult, Qinv, inject_Z. cbn -[Z.mul].
  rewrite ?Pos2Z.inj_mul. split; nia.
Qed.

(** ** Further properties of the fence removal *)

Lemma append_assoc3 (a b c : string) : (a ++ b) ++ c = a ++ (b ++ c).
Proof. induction a as [|x a IH]; cbn; [|rewrite IH]; reflexivity. Qed.

Lemma append_empty_r (a : string) : a ++ "" = a.
Proof. induction a as [|x a IH]; cbn; [|rewrite IH]; reflexivity. Qed.

Lemma prefix_app (sep rest : string) : prefix sep (sep ++ rest) = true.
Proof.
  induction sep as [|c sep IH]; cbn; [destruct rest; reflexivity|].
  destruct (ascii_dec c c); [exact IH | contradiction].
Qed.

Lemma prefix_other_char (c0 c : ascii) (sep s : string) :
  c <> c0 -> prefix (String c0 sep) (String c s) = false.
Proof.
  intro N. cbn. destruct (ascii_dec c0 c) as [E|]; [|reflexivity].
  symmetry in E. contradiction.
Qed.

Lemma prefix_cons_same (a : ascii) (s1 s2 : string) :
  prefix (String a s1) (String a s2) = prefix s1 s2.
Proof. cbn [prefix]. destruct (ascii_dec a a); [reflexivity | contradiction]. Qed.

Lemma not_backtick (c : ascii) : Ascii.eqb c backtick = false -> c <> backtick.
Proof. intros E ->. rewrite Ascii.eqb_refl in E. discriminate E. Qed.

Lemma contains_unfold (sub s : string) :
  PyStr.contains sub s
  = prefix sub s || match s with
                    | EmptyString => false
                    | String _ s' => PyStr.contains sub s'
                    end.
Proof. destruct s; reflexivity. Qed.

(** [sep] is found in any text that contains it. *)
Lemma contains_app_sep (sep rest : string) :
  forall p, PyStr.contains sep (p ++ sep ++ rest) = true.
Proof.
  induction p as [|c p IH]; cbn [append].
  - rewrite contains_unfold, prefix_app. reflexivity.
  - rewrite contains_unfold, IH. apply orb_true_r.
Qed.

(** Text without a backtick is passed over by a split on a fence. *)
Lemma split_pass (sep s : string) :
  forall p cur,
    no_backtick p = true ->
    PyStr.split_from (String backtick sep) O cur (p ++ s)
    = PyStr.split_from (String backtick sep) O (cur ++ p) s.
Proof.
  induction p as [|c p IH]; intros cur N.
  - cbn [append]. rewrite append_empty_r. reflexivity.
  - cbn [no_backtick] in N. apply andb_true_iff in N. destruct N as [N1 N2].
    apply negb_true_iff, not_backtick in N1.
    cbn [append PyStr.split_from]. rewrite (prefix_other_char _ _ _ _ N1).
    rewrite IH by exact N2. rewrite append_assoc3. reflexivity.
Qed.

(** The characters of a separator just found are skipped. *)
Lemma split_skip (sep rest : string) :
  forall x cur,
    PyStr.split_from sep (String.length x) cur (x ++ rest)
    = PyStr.split_from sep O cur rest.
Proof.
  induction x as [|c x IH]; intro cur; cbn [String.length append].
  - reflexivity.
  - cbn [PyStr.split_from]. apply IH.
Qed.

Lemma split_from_unfold (sep cur s : string) :
  PyStr.split_from sep O cur s
  = if prefix sep s then
      cur :: match s with
             | EmptyString => [EmptyString]
             | String _ s' => PyStr.split_from sep (String.length sep - 1) EmptyString s'
             end
    else
      match s with
      | EmptyString => [cur]
      | String c s' => PyStr.split_from sep O (cur ++ String c EmptyString) s'
      end.
Proof. destruct s; reflexivity. Qed.

Lemma split_match (c0 : ascii) (sep cur rest : string) :
  PyStr.split_from (String c0 sep) O cur (String c0 sep ++ rest)
  = cur :: PyStr.split_from (String c0 sep) O "" rest.
Proof.
  rewrite split_from_unfold, prefix_app. cbn [append].
  f_equal. cbn [String.length]. rewrite Nat.sub_1_r. cbn [Nat.pred].
  apply split_skip.
Qed.

(** The first part of a split begins with what was collected so far. *)
Lemma split_head_extends (c0 : ascii) (sep : string) :
  forall s cur, exists t l,
    PyStr.split_from (String c0 sep) O cur s = (cur ++ t) :: l.
Proof.
  induction s as [|c s IH]; intro cur; cbn [PyStr.split_from].
  - exists "". rewrite append_empty_r.
    destruct (prefix (String c0 sep) ""); eauto.
  - destruct (prefix (String c0 sep) (String c s)).
    + exists "". rewrite append_empty_r. eauto.
    + destruct (IH (cur ++ String c "")) as (t & l & E).
      exists (String c t), l. rewrite E, append_assoc3. reflexivity.
Qed.

(** A split on the bare fence of a text that has none is the text. *)
Lemma split_bare_none (body : string) :
  no_backtick body = true -> PyStr.split "```" body = [body].
Proof.
  intro N. unfold PyStr.split.
  rewrite <- (append_empty_r body) at 1.
  change "```" with (String backtick "``").
  rewrite split_pass by exact N. reflexivity.
Qed.

(** A split on the bare fence stops at the first fence. *)
Lemma split_bare_first (body rest : string) :
  no_backtick body = true ->
  exists l, PyStr.split "```" (body ++ "```" ++ rest) = body :: l.
Proof.
  intro N. unfold PyStr.split. change "```" with (String backtick "``").
  rewrite split_pass by exact N. rewrite split_match. cbn [append]. eauto.
Qed.

(** After a tagged fence, the text up to the next tagged fence begins
    with the body and, unless the text ends there, its closing fence. *)
Lemma tagged_rest (body suffix : string) :
  no_backtick body = true ->
  starts_with_backtick suffix = false ->
  exists after l l',
    PyStr.split_from "```json" O "" (body ++ "```" ++ suffix) = after :: l /\
    PyStr.split "```" after = body :: l'.
Proof.
  intros N S.
  change "```json" with (String backtick "``json").
  rewrite split_pass by exact N. cbn [append].
  rewrite split_from_unfold.
  destruct (prefix (String backtick "``json") (String "`" (String "`" (String "`" suffix)))).
  - exists body. eexists. exists []. split; [reflexivity|].
    apply split_bare_none. exact N.
  - rewrite split_from_unfold.
    assert (P2 : prefix (String backtick "``json") (String "`" (String "`" suffix)) = false).
    { change (String backtick "``json") with (String "`" (String "`" (String backtick "json"))).
      rewrite !prefix_cons_same.
      destruct suffix as [|c s]; [reflexivity|].
      cbn [starts_with_backtick] in S. apply not_backtick in S.
      apply prefix_other_char. exact S. }
    rewrite P2. rewrite split_from_unfold.
    assert (P1 : prefix (String backtick "``json") (String "`" suffix) = false).
    { change (String backtick "``json") with (String "`" (String backtick "`json")).
      rewrite prefix_cons_same.
      destruct suffix as [|c s]; [reflexivity|].
      cbn [starts_with_backtick] in S. apply not_backtick in S.
      apply prefix_other_char. exact S. }
    rewrite P1.
    destruct (split_head_extends backtick "``json" suffix
                (((body ++ "`") ++ "`") ++ "`")) as (t & l & E).
    rewrite E. rewrite !append_assoc3. cbn [append].
    destruct (split_bare_first body t N) as (l' & F).
    eexists. exists l, l'. split; [reflexivity | exact F].
Qed.

(** X11. A text answer wrapped in a tagged fence is unwrapped: when
    no backtick stands before the opening fence or inside the body, and
    the closing fence is not followed by a backtick, what is handed to
    [json.loads] is the body between the fences with the white space
    around it removed, whatever prose surrounds the fences. *)
Theorem tagged_fence_is_unwrapped (p body suffix : string) (w : World) :
  no_backtick p = true ->
  no_backtick body = true ->
  starts_with_backtick suffix = false ->
  extract_json (p ++ "```json" ++ body ++ "```" ++ suffix) w
  = (Ok (PyStr.strip body), w).
Proof.
  intros Np Nb S. unfold extract_json.
  rewrite contains_app_sep.
  destruct (tagged_rest body suffix Nb S) as (after & l & l' & A & B).
  unfold PyStr.split at 1. change "```json" with (String backtick "``json") at 1 2.
  rewrite split_pass by exact Np. rewrite split_match. cbn [append].
  change "```json" with (String backtick "``json") in A. cbn [append] in A.
  rewrite A.
  unfold bind, getitem, ret. cbn [nth_error]. rewrite B. reflexivity.
Qed.

(** X12. A text answer wrapped in a bare fence is unwrapped too: when
    the text holds no tagged fence and no backtick stands before the
    opening fence or inside the body, what is handed to [json.loads] is
    everything between the two fences, trimmed (a language tag other
    than json stays in it). *)
Theorem bare_fence_is_unwrapped (p body suffix : string) (w : World) :
  PyStr.contains "```json" (p ++ "```" ++ body ++ "```" ++ suffix) = false ->
  no_backtick p = true ->
  no_backtick body = true ->
  extract_json (p ++ "```" ++ body ++ "```" ++ suffix) w
  = (Ok (PyStr.strip body), w).
Proof.
  intros T Np Nb. unfold extract_json. rewrite T.
  rewrite contains_app_sep.
  destruct (split_bare_first body suffix Nb) as (l & B).
  unfold PyStr.split in B.
  unfold PyStr.split at 1. change "```" with (String backtick "``") at 1 2.
  rewrite split_pass by exact Np. rewrite split_match. cbn [append].
  replace (PyStr.split_from (String backtick "``") 0 ""
             (body ++ String "`" (String "`" (String "`" suffix))))
    with (body :: l) by (symmetry; exact B).
  unfold bind, getitem, ret. cbn [nth_error].
  rewrite (split_bare_none body Nb). reflexivity.
Qed.

(** ** The further properties at work on the sample requests *)

Lemma missing_api_key_rejects_before_any_call_witness :
  exists w',
    submit_lead Sample.loads Sample.coerce
      {| ANTHROPIC_API_KEY := Some ""; SMTP_USER := None; SMTP_PASSWORD := None;
         TELEGRAM_CHAT_ID := None |}
      Sample.slow Sample.ana (initial_world Sample.t0)
    = (Raise (HTTPException 500 "ANTHROPIC_API_KEY not set"), w') /\
    clock w' = Sample.t0 /\
    leads w' = [] /\
    stdout w' = ["Error processing lead: ANTHROPIC_API_KEY not set"].
Proof.
  apply (missing_api_key_rejects_before_any_call Sample.loads Sample.coerce
           {| ANTHROPIC_API_KEY := Some ""; SMTP_USER := None; SMTP_PASSWORD := None;
              TELEGRAM_CHAT_ID := None |}
           Sample.slow Sample.ana (initial_world Sample.t0)).
  reflexivity.
Defined.


Lemma unbindable_analysis_is_rejected_witness :
  exists detail w',
    submit_lead Sample.loads_more Sample.coerce Sample.cfg_full
      (Sample.answering Sample.doc_list_score 1500000) Sample.ana
      (initial_world Sample.t0)
    = (Raise (HTTPException 500 detail), w') /\
    leads w' = [] /\ sqlite_sequence w' = 0.
Proof.
  apply (unbindable_analysis_is_rejected Sample.loads_more Sample.coerce
           Sample.cfg_full (Sample.answering Sample.doc_list_score 1500000)
           Sample.ana (initial_world Sample.t0)
           {| an_intent_classification := JStr "unknown";
              an_lead_score := JList [JInt 1; JInt 2];
              an_ai_response := JStr "" |}
           (tick 1500000 (initial_world Sample.t0)));
    vm_compute; reflexivity.
Defined.

Example list_score_detail :
  fst (submit_lead Sample.loads_more Sample.coerce Sample.cfg_full
         (Sample.answering Sample.doc_list_score 1500000) Sample.ana
         (initial_world Sample.t0))
  = Raise (HTTPException 500
             "Error binding parameter 7: type 'list' is not supported").
Proof. vm_compute. reflexivity. Qed.

Lemma stored_row_is_the_submission_witness :
  exists ai_result w1 sent w2 row,
    process_lead_with_ai Sample.loads Sample.cfg_full Sample.ana_oracle Sample.ana
      (initial_world Sample.t0) = (Ok ai_result, w1) /\
    send_email_response Sample.cfg_full Sample.ana_oracle "ana@x.com" "Ana" "Acme"
      (an_ai_response ai_result) w1 = (Ok sent, w2) /\
    leads (snd (submit_lead Sample.loads Sample.coerce Sample.cfg_full
                  Sample.ana_oracle Sample.ana (initial_world Sample.t0)))
    = [row] /\
    row_name row = "Ana" /\ row_email row = "ana@x.com" /\
    row_company row = "Acme" /\
    row_message row = "We need a demo ASAP, 500 seats" /\
    row_phone row = None /\
    email_sent row = sent /\
    (forall s, an_intent_classification ai_result = JStr s ->
               intent_classification row = Sqlite.Text s) /\
    (forall n, an_lead_score ai_result = JInt n ->
               lead_score row = Sqlite.Integer n) /\
    (forall s, an_ai_response ai_result = JStr s ->
               ai_response row = Sqlite.Text s).
Proof.
  assert (H : submit_lead Sample.loads Sample.coerce Sample.cfg_full Sample.ana_oracle
                Sample.ana (initial_world Sample.t0)
              = (Ok Sample.ana_accepted,
                 snd (submit_lead Sample.loads Sample.coerce Sample.cfg_full
                        Sample.ana_oracle Sample.ana (initial_world Sample.t0))))
    by (vm_compute; reflexivity).
  exact (stored_row_is_the_submission Sample.loads Sample.coerce _ _ _ _ _ _ H).
Defined.

Lemma accepted_lead_heads_recent_leads_witness :
  Forall (fun r => created_at r < clock (Sample.after_fifteen Sample.slow) / 1000000)
         (leads (Sample.after_fifteen Sample.slow)) /\
  exists entry others,
    recent_leads
      (get_stats (snd (submit_lead Sample.loads Sample.coerce Sample.cfg_no_smtp
                         Sample.slow Sample.ana (Sample.after_fifteen Sample.slow))))
    = entry :: others /\
    rl_name entry = "Ana" /\
    rl_company entry = "Acme" /\
    rl_response_time_ms entry = Some 1500.
Proof.
  assert (F : Forall (fun r => created_at r
                               < clock (Sample.after_fifteen Sample.slow) / 1000000)
                     (leads (Sample.after_fifteen Sample.slow)))
    by (cbv -[Z.lt]; repeat constructor).
  assert (H : submit_lead Sample.loads Sample.coerce Sample.cfg_no_smtp Sample.slow
                Sample.ana (Sample.after_fifteen Sample.slow)
              = (Ok {| success := true;
                       reply_message := "Thank you! We've responded to ana@x.com in 1500ms";
                       lead_id := Some 16;
                       response_time_ms := Some 1500 |},
                 snd (submit_lead Sample.loads Sample.coerce Sample.cfg_no_smtp
                        Sample.slow Sample.ana (Sample.after_fifteen Sample.slow))))
    by (vm_compute; reflexivity).
  split; [exact F|].
  apply (accepted_lead_heads_recent_leads Sample.loads Sample.coerce _ _ _ _ _ _ H F);
    vm_compute; discriminate.
Defined.

Lemma serve_keeps_keys_ordered_witness :
  well_keyed (initial_world Sample.t0) /\
  well_keyed (Sample.after_fifteen Sample.slow) /\
  NoDup (map id (leads (Sample.after_fifteen Sample.slow))).
Proof.
  assert (W : well_keyed (initial_world Sample.t0))
    by (split; constructor).
  split; [exact W|].
  exact (serve_keeps_keys_ordered Sample.loads Sample.coerce Sample.cfg_no_smtp
           (map (fun l => (Sample.slow, l)) Sample.fifteen)
           (initial_world Sample.t0) W).
Defined.

Lemma avg_response_time_within_bounds_witness :
  known_times (leads (Sample.after_fifteen Sample.slow)) <> [] /\
  Forall (fun t => 1500 <= t <= 1500)
         (known_times (leads (Sample.after_fifteen Sample.slow))) /\
  Z.of_nat (List.length (known_times (leads (Sample.after_fifteen Sample.slow))))
  * Z.max (Z.abs 1500) (Z.abs 1500) <= 2 ^ 53 /\
  1500 <= avg_response_time_ms (get_stats (Sample.after_fifteen Sample.slow)) <= 1500.
Proof.
  assert (K : known_times (leads (Sample.after_fifteen Sample.slow))
              = List.repeat 1500 15) by (vm_compute; reflexivity).
  assert (N : known_times (leads (Sample.after_fifteen Sample.slow)) <> [])
    by (rewrite K; discriminate).
  assert (F : Forall (fun t => 1500 <= t <= 1500)
                     (known_times (leads (Sample.after_fifteen Sample.slow)))).
  { rewrite K. apply Forall_forall. intros t I. apply repeat_spec in I. lia. }
  assert (B : Z.of_nat (List.length
                          (known_times (leads (Sample.after_fifteen Sample.slow))))
              * Z.max (Z.abs 1500) (Z.abs 1500) <= 2 ^ 53)
    by (rewrite K; vm_compute; discriminate).
  split; [exact N|]. split; [exact F|]. split; [exact B|].
  exact (avg_response_time_within_bounds _ 1500 1500 N F B).
Defined.

Lemma tagged_fence_is_unwrapped_witness :
  extract_json (Sample.fenced Sample.doc_demo) (initial_world Sample.t0)
  = (Ok Sample.doc_demo, initial_world Sample.t0).
Proof.
  exact (tagged_fence_is_unwrapped
           ("Here is the analysis:" ++ PyStr.nl)
           (PyStr.nl ++ Sample.doc_demo ++ PyStr.nl)
           PyStr.nl (initial_world Sample.t0) eq_refl eq_refl eq_refl).
Defined.

Lemma bare_fence_is_unwrapped_witness :
  extract_json ("```" ++ PyStr.nl ++ Sample.doc_demo ++ PyStr.nl ++ "```")
    (initial_world Sample.t0)
  = (Ok Sample.doc_demo, initial_world Sample.t0).
Proof.
  exact (bare_fence_is_unwrapped "" (PyStr.nl ++ Sample.doc_demo ++ PyStr.nl) ""
           (initial_world Sample.t0) eq_refl eq_refl eq_refl).
Defined.

(** ** The rate as Python computes it *)



(** ** The intent through the whole pipeline *)

Section IntentPipeline.

Variable json_loads : string -> result json.
Variable affinity_coerce : Sqlite.affinity -> Sqlite.value -> Sqlite.value.

(** The INSERT succeeds when the engine is available, the values can
    be bound and a key is left. *)
Lemma save_lead_succeeds o lead_data w score intent response :
  sqlite_fault o = None ->
  Sqlite.bind_param 7 (ld_lead_score lead_data) = Ok score ->
  Sqlite.bind_param 8 (ld_intent_classification lead_data) = Ok intent ->
  - 2 ^ 63 <= ld_response_time_ms lead_data < 2 ^ 63 ->
  Sqlite.bind_param 11 (ld_ai_response lead_data) = Ok response ->
  largest_key w < 2 ^ 63 - 1 ->
  exists w',
    save_lead affinity_coerce o lead_data w = (Ok (largest_key w + 1), w') /\
    exists row,
      leads w' = (leads w ++ [row])%list /\
      id row = largest_key w + 1 /\
      intent_classification row = store_as affinity_coerce Sqlite.TEXT intent.
Proof.
  intros F B7 B8 R B11 K. unfold save_lead, next_rowid.
  rewrite F, B7, B8, B11. cbn [Sqlite.bind_param].
  replace ((- 2 ^ 63 <=? ld_response_time_ms lead_data)
           && (ld_response_time_ms lead_data <? 2 ^ 63)) with true
    by (symmetry; apply andb_true_iff; split;
        [apply Z.leb_le | apply Z.ltb_lt]; lia).
  replace (largest_key w <? 2 ^ 63 - 1) with true
    by (symmetry; apply Z.ltb_lt; exact K).
  eexists. split; [reflexivity|]. eexists. repeat split; reflexivity.
Qed.

(** C4 (as amended). When the text between the fences parses as a JSON
    object, the intent of the analysis is "unknown" if the object has
    no intent and the value the object gives otherwise, kept as it is
    also when it is not one of the enumerated intents; and the pipeline
    still succeeds whenever the record can be stored (the intent, the
    score and the reply can be bound, which arrays and objects cannot;
    the engine is available and a key is left; the two calls take a
    time that fits a 64-bit column): the handler returns the success
    envelope and the new row carries that intent, as text when it is a
    text. *)
Theorem intent_is_kept_and_pipeline_succeeds
    cfg o lead w text rest doc items score intent response :
  PyStr.truthy (ANTHROPIC_API_KEY cfg) = true ->
  messages_create o (build_prompt lead) = Ok (TextBlock text :: rest) ->
  fst (extract_json text w) = Ok doc ->
  json_loads doc = Ok (JDict items) ->
  Sqlite.bind_param 7 (dict_get items "score" (JInt 5)) = Ok score ->
  Sqlite.bind_param 8 (dict_get items "intent" (JStr "unknown")) = Ok intent ->
  Sqlite.bind_param 11 (dict_get items "response" (JStr "")) = Ok response ->
  sqlite_fault o = None ->
  largest_key w < 2 ^ 63 - 1 ->
  0 <= t_messages_create o < 2 ^ 62 ->
  0 <= t_smtp o < 2 ^ 62 ->
  exists ai_result w1 resp w' row,
    process_lead_with_ai json_loads cfg o lead w = (Ok ai_result, w1) /\
    an_intent_classification ai_result
    = match dict_lookup items "intent" with
      | Some v => v
      | None => JStr "unknown"
      end /\
    submit_lead json_loads affinity_coerce cfg o lead w = (Ok resp, w') /\
    success resp = true /\
    lead_id resp = Some (id row) /\
    leads w' = (leads w ++ [row])%list /\
    intent_classification row = store_as affinity_coerce Sqlite.TEXT intent /\
    (forall s, an_intent_classification ai_result = JStr s ->
               intent_classification row = Sqlite.Text s).
Proof.
  intros K P X L B7 B8 B11 F G T1 T2.
  destruct (analyzer_on_text json_loads cfg o lead w text rest K P) as (doc' & E & A).
  rewrite E in X. cbn [fst] in X. injection X as ->.
  rewrite L in A.
  set (ai := {| an_intent_classification := dict_get items "intent" (JStr "unknown");
                an_lead_score := dict_get items "score" (JInt 5);
                an_ai_response := dict_get items "response" (JStr "") |}) in *.
  pose proof (analyzer_effect _ _ _ _ _ _ _ A) as (TA & _ & C1). rewrite K in C1.
  destruct (responder_effect cfg o (email lead) (name lead) (company lead)
              (an_ai_response ai) (tick (t_messages_create o) w))
    as (sent & w2 & R & TR & C2).
  pose proof (same_table_trans _ _ _ TA TR) as T.
  set (lead_data := mk_lead_data lead ai sent (elapsed_ms (clock w) (clock w2)) (clock w2)).
  assert (RT : - 2 ^ 63 <= ld_response_time_ms lead_data < 2 ^ 63).
  { cbn [lead_data mk_lead_data ld_response_time_ms]. unfold elapsed_ms.
    assert (S0 : 0 <= clock w2 - clock w < 2 ^ 63)
      by (destruct (smtp_attempted cfg (an_ai_response ai)); lia).
    pose proof (Z.quot_pos (clock w2 - clock w) 1000 ltac:(lia) ltac:(lia)).
    pose proof (Z.quot_le_upper_bound (clock w2 - clock w) 1000 (2 ^ 63 - 1)
                  ltac:(lia) ltac:(lia)).
    lia. }
  assert (G2 : largest_key w2 < 2 ^ 63 - 1)
    by (rewrite (same_table_largest_key _ _ T); exact G).
  destruct (save_lead_succeeds o lead_data w2 score intent response F B7 B8 RT B11 G2)
    as (w3 & S & row & SL & SI & SC).
  destruct (notifier_effect cfg o lead_data w3) as (w4 & N & [N1 _]).
  exists ai, (tick (t_messages_create o) w).
  eexists. exists w4, row.
  split; [exact A|]. split; [reflexivity|].
  split.
  { rewrite submit_lead_steps, A, R. cbv zeta. fold lead_data. rewrite S, N.
    reflexivity. }
  cbn [success lead_id]. split; [reflexivity|].
  split; [rewrite SI, (same_table_largest_key _ _ T); reflexivity|].
  split; [destruct T as [T1' _]; rewrite N1, SL, T1'; reflexivity|].
  split; [exact SC|].
  intros s I. rewrite SC. cbn [ai an_intent_classification] in I.
  rewrite I in B8. cbn [Sqlite.bind_param] in B8. injection B8 as <-. reflexivity.
Qed.

End IntentPipeline.

Lemma intent_is_kept_and_pipeline_succeeds_witness :
  exists ai_result w1 resp w' row,
    process_lead_with_ai Sample.loads Sample.cfg_full
      (Sample.answering (Sample.fenced Sample.doc_bogus) 1500000) Sample.ana
      (initial_world Sample.t0) = (Ok ai_result, w1) /\
    an_intent_classification ai_result = JStr "bogus_value" /\
    submit_lead Sample.loads Sample.coerce Sample.cfg_full
      (Sample.answering (Sample.fenced Sample.doc_bogus) 1500000) Sample.ana
      (initial_world Sample.t0) = (Ok resp, w') /\
    success resp = true /\
    lead_id resp = Some (id row) /\
    leads w' = [row] /\
    intent_classification row = Sqlite.Text "bogus_value" /\
    (forall s, an_intent_classification ai_result = JStr s ->
               intent_classification row = Sqlite.Text s).
Proof.
  apply (intent_is_kept_and_pipeline_succeeds Sample.loads Sample.coerce
           Sample.cfg_full
           (Sample.answering (Sample.fenced Sample.doc_bogus) 1500000) Sample.ana
           (initial_world Sample.t0) (Sample.fenced Sample.doc_bogus) []
           Sample.doc_bogus
           [("intent", JStr "bogus_value"); ("score", JInt 11)]
           (Sqlite.Integer 11) (Sqlite.Text "bogus_value") (Sqlite.Text ""));
    try (vm_compute; reflexivity);
    vm_compute; split; (discriminate || reflexivity).
Defined.

Example bogus_intent_is_stored :
  fst (submit_lead Sample.loads Sample.coerce Sample.cfg_full
         (Sample.answering (Sample.fenced Sample.doc_bogus) 1500000) Sample.ana
         (initial_world Sample.t0))
  = Ok {| success := true;
          reply_message := "Thank you! We've responded to ana@x.com in 1700ms";
          lead_id := Some 1;
          response_time_ms := Some 1700 |}
  /\ map (fun r => (id r, intent_classification r, lead_score r))
         (leads (snd (submit_lead Sample.loads Sample.coerce Sample.cfg_full
                        (Sample.answering (Sample.fenced Sample.doc_bogus) 1500000)
                        Sample.ana (initial_world Sample.t0))))
     = [(1, Sqlite.Text "bogus_value", Sqlite.Integer 11)].
Proof. split; vm_compute; reflexivity. Qed.
